(** * Vector similarity store: a shallow embedding of
      [app/services/vector_store.py] (class [VectorStore]).

    The store keeps a FAISS [IndexFlatL2] (an append-only array of vectors)
    and a Python dict [metadata : document_id -> {"faiss_id", "metadata"}],
    and writes both to two files after every mutation.  The second part
    embeds [app/services/document_processor.py] (class [DocumentProcessor]).

    Modelling conventions.
    - float32 components and distances are idealised as exact rationals [Q]:
      rounding is not modelled.  A statement that depends on the value of a
      distance assumes [float32_exact], the range of inputs in which the
      rational distance is the one float32 computes.
    - a Python [dict] is an association list in insertion order with unique
      keys ([dict_wf]); the order matters because [search] resolves a position
      by a linear scan that stops at the first match.
    - an exception is a value [Err e]; a raising method leaves the object as
      it was at the point of the raise.
    - the two snapshot files are modelled by what reading them gives back:
      the object that was written, or a failure of the reader.  Writes are
      assumed to succeed and every metadata value to be picklable, so the
      only exceptions of [add_document] and [search] here are those of their
      validation. *)

From Stdlib Require Import String Ascii.
From Stdlib Require Import List ZArith QArith Qminmax Bool Lia Lqa Sorted Permutation.
Import ListNotations.
Open Scope string_scope.
Open Scope Z_scope.
Open Scope list_scope.

(** ** Exceptions and results *)

Inductive exn : Type :=
| ValueError_Embedding_dimension_mismatch (expected got : Z)
| ValueError_Query_dimension_mismatch (expected got : Z)
| AssertionError          (* faiss: [assert d == self.d] *)
| RuntimeError_read_index (* faiss.read_index on an unreadable file *)
| UnpicklingError.        (* pickle.load on an unreadable file *)

Inductive result (A : Type) : Type :=
| Ok (a : A)
| Err (e : exn).
Arguments Ok {A} a.
Arguments Err {A} e.

(** ** The FAISS flat L2 index

    [faiss] is a third-party library; its code is not part of the repository.
    The source uses three of its entry points: [IndexFlatL2(dimension)],
    [index.add], [index.search] and the attribute [index.ntotal]. *)

Definition vector := list Q.

Record IndexFlatL2 : Type := mkIndex {
  d : Z;                (* dimension fixed at construction *)
  xb : list vector      (* stored vectors, position = list index *)
}.

Definition ntotal (ix : IndexFlatL2) : Z := Z.of_nat (length (xb ix)).

Definition shape0 (v : vector) : Z := Z.of_nat (length v).

(** Modelled from the spec: [faiss.IndexFlatL2.add] is missing from the sources
    (third-party).  Section 4.1: appends the vector, the new position is
    greater than all earlier ones; fails when the length is not the index
    dimension (in the Python wrapper of FAISS: [assert d == self.d]). *)
Definition IndexFlatL2_add (ix : IndexFlatL2) (x : vector) : result IndexFlatL2 :=
  if shape0 x =? d ix then Ok (mkIndex (d ix) (xb ix ++ [x]))
  else Err AssertionError.

(** Squared Euclidean distance. *)
Fixpoint fvec_L2sqr (x y : vector) : Q :=
  match x, y with
  | a :: x', b :: y' => ((a - b) * (a - b) + fvec_L2sqr x' y')%Q
  | _, _ => 0%Q
  end.

(** A hit is a pair (distance, label), as in [zip(distances[0], indices[0])]. *)
Definition hit : Type := (Q * Z)%type.

Fixpoint distances_from (q : vector) (pos : Z) (vs : list vector) : list hit :=
  match vs with
  | [] => []
  | v :: vs' => (fvec_L2sqr q v, pos) :: distances_from q (pos + 1) vs'
  end.

(** Insertion before the first hit that is not closer: among equal distances
    the hit inserted last comes first. *)
Fixpoint insert_hit (h : hit) (l : list hit) : list hit :=
  match l with
  | [] => [h]
  | h' :: l' => if Qle_bool (fst h) (fst h') then h :: l else h' :: insert_hit h l'
  end.

Fixpoint sort_hits (l : list hit) : list hit :=
  match l with
  | [] => []
  | h :: l' => insert_hit h (sort_hits l')
  end.

(** The largest finite float32, the distance FAISS writes in an unused slot. *)
Definition FLT_MAX : Q := inject_Z ((2 ^ 24 - 1) * 2 ^ 104).

Definition padding_slot : hit := (FLT_MAX, -1).

(** Modelled from the spec: [faiss.IndexFlatL2.search] is missing from the
    sources (third-party).  Section 4.1 gives the hits: exact brute force,
    every stored vector is compared with the query; squared L2 distance;
    results ascending by distance, the lower position first among equal
    distances; at most [k] of them.  The shape of the result is the library's
    and differs from the section's "length min(k, total)": FAISS returns
    arrays of exactly [k] slots, "if there are not enough results the result
    array is padded with -1s" (faiss/Index.h), so the [found] hits are
    followed by padding slots, which is what the caller's loop iterates over;
    and its Python wrapper asserts [k > 0]. *)
Definition found_hits (ix : IndexFlatL2) (q : vector) (k : nat) : list hit :=
  firstn k (sort_hits (distances_from q 0 (xb ix))).

(** [index.search(x, k)] for one query row; [k] is the caller's [limit], a
    natural number here (a negative [limit] fails the same assertion as 0). *)
Definition IndexFlatL2_search (ix : IndexFlatL2) (q : vector) (k : nat)
  : result (list hit) :=
  if shape0 q =? d ix then
    match k with
    | O => Err AssertionError       (* [assert k > 0] *)
    | S _ =>
        let found := found_hits ix q k in
        Ok (found ++ repeat padding_slot (k - length found))
    end
  else Err AssertionError.

(** ** The metadata dict *)

Definition metadata_t := list (string * string).   (* opaque key-value mapping *)

Record DocEntry : Type := mkEntry {
  faiss_id : Z;               (* data["faiss_id"] *)
  entry_metadata : metadata_t (* data["metadata"] *)
}.

Definition pydict := list (string * DocEntry).

Definition keys (m : pydict) : list string := map fst m.

Definition dict_wf (m : pydict) : Prop := NoDup (keys m).

(** [document_id in m] *)
Definition dict_contains (m : pydict) (k : string) : bool :=
  existsb (fun kv => String.eqb (fst kv) k) m.

Fixpoint dict_get (m : pydict) (k : string) : option DocEntry :=
  match m with
  | [] => None
  | (k', v) :: m' => if String.eqb k' k then Some v else dict_get m' k
  end.

(** [m[k] = v]: an existing key keeps its place, a new key goes last. *)
Fixpoint dict_set (m : pydict) (k : string) (v : DocEntry) : pydict :=
  match m with
  | [] => [(k, v)]
  | (k', v') :: m' =>
      if String.eqb k' k then (k', v) :: m' else (k', v') :: dict_set m' k v
  end.

(** [del m[k]] *)
Definition dict_del (m : pydict) (k : string) : pydict :=
  filter (fun kv => negb (String.eqb (fst kv) k)) m.

(** ** The store and its files *)

Record VectorStore : Type := mkStore {
  dimension : Z;
  index : IndexFlatL2;
  metadata : pydict
}.

Inductive file (A : Type) : Type :=
| Readable (content : A)
| Unreadable.
Arguments Readable {A} content.
Arguments Unreadable {A}.

(** The directory [index_path]: [faiss_index.bin] and [metadata.pkl]. *)
Record Disk : Type := mkDisk {
  index_file : option (file IndexFlatL2);
  metadata_file : option (file pydict)
}.

Definition exists_file {A} (f : option A) : bool :=
  match f with Some _ => true | None => false end.

Definition fresh (dim : Z) : VectorStore := mkStore dim (mkIndex dim []) [].

(** [_load_index] *)
Definition _load_index (disk : Disk) : result IndexFlatL2 :=
  match index_file disk with
  | Some (Readable ix) => Ok ix
  | _ => Err RuntimeError_read_index
  end.

Definition pickle_load (disk : Disk) : result pydict :=
  match metadata_file disk with
  | Some (Readable m) => Ok m
  | _ => Err UnpicklingError
  end.

(** [VectorStore.__init__(index_path, dimension)] *)
Definition init (dim : Z) (disk : Disk) : result VectorStore :=
  if exists_file (index_file disk) && exists_file (metadata_file disk) then
    match _load_index disk with
    | Err e => Err e
    | Ok ix =>
        match pickle_load disk with
        | Err e => Err e
        | Ok m => Ok (mkStore dim ix m)
        end
    end
  else Ok (fresh dim).

(** [_save_index]: both files are rewritten. *)
Definition _save_index (self : VectorStore) (disk : Disk) : Disk :=
  mkDisk (Some (Readable (index self))) (Some (Readable (metadata self))).

(** A running process: the store object and the directory it persists to. *)
Record System : Type := mkSystem {
  store : VectorStore;
  disk : Disk
}.

(** [metadata or {}] *)
Definition or_empty (md : option metadata_t) : metadata_t :=
  match md with Some m => m | None => [] end.

(** [add_document] *)
Definition add_document (document_id : string) (embedding : vector)
    (md : option metadata_t) (w : System) : result Z * System :=
  let self := store w in
  if negb (shape0 embedding =? dimension self) then
    (Err (ValueError_Embedding_dimension_mismatch (dimension self) (shape0 embedding)), w)
  else
    match IndexFlatL2_add (index self) embedding with
    | Err e => (Err e, w)
    | Ok ix' =>
        let idx := ntotal ix' - 1 in
        let m' := dict_set (metadata self) document_id (mkEntry idx (or_empty md)) in
        let self' := mkStore (dimension self) ix' m' in
        (Ok idx, mkSystem self' (_save_index self' (disk w)))
    end.

(** One search result: [{"document_id", "similarity", "metadata", "rank"}]. *)
Record SearchResult : Type := mkResult {
  document_id : string;
  similarity : Q;
  result_metadata : metadata_t;
  rank : nat
}.

(** The inner loop of [search]: the first entry, in dict order, whose
    ["faiss_id"] equals [idx]. *)
Definition resolve (m : pydict) (idx : Z) : option (string * DocEntry) :=
  find (fun kv => faiss_id (snd kv) =? idx) m.

(** Truth value of a [str]: only the empty string is false. *)
Definition truthy (s : string) : bool :=
  match s with EmptyString => false | _ => true end.

(** [1.0 - min(distance / 100.0, 1.0)] *)
Definition to_similarity (distance : Q) : Q :=
  (1 - Qmin (distance / 100) 1)%Q.

(** The loop [for i, (distance, idx) in enumerate(zip(...))], from index [i]. *)
Fixpoint prepare_results (m : pydict) (i : nat) (hits : list hit)
  : list SearchResult :=
  match hits with
  | [] => []
  | (distance, idx) :: rest =>
      match resolve m idx with
      | Some (doc_id, data) =>
          if truthy doc_id then
            mkResult doc_id (to_similarity distance) (entry_metadata data) (i + 1)
              :: prepare_results m (S i) rest
          else prepare_results m (S i) rest
      | None => prepare_results m (S i) rest
      end
  end.

(** [search] *)
Definition search (query_embedding : vector) (limit : nat) (self : VectorStore)
  : result (list SearchResult) :=
  if negb (shape0 query_embedding =? dimension self) then
    Err (ValueError_Query_dimension_mismatch (dimension self) (shape0 query_embedding))
  else
    match IndexFlatL2_search (index self) query_embedding limit with
    | Err e => Err e
    | Ok hits => Ok (prepare_results (metadata self) 0 hits)
    end.

(** [delete_document] *)
Definition delete_document (doc : string) (w : System) : bool * System :=
  let self := store w in
  if negb (dict_contains (metadata self) doc) then (false, w)
  else
    let self' := mkStore (dimension self) (index self) (dict_del (metadata self) doc) in
    (true, mkSystem self' (_save_index self' (disk w))).

(** [get_document_count] *)
Definition get_document_count (self : VectorStore) : Z := ntotal (index self).

(** ** Runs of the system *)

Inductive op : Type :=
| Add (doc : string) (embedding : vector) (md : option metadata_t)
| Delete (doc : string).

Definition exec (o : op) (w : System) : System :=
  match o with
  | Add doc embedding md => snd (add_document doc embedding md w)
  | Delete doc => snd (delete_document doc w)
  end.

Definition run (ops : list op) (w : System) : System :=
  fold_left (fun w o => exec o w) ops w.

(** Both snapshot files are there: the test of [__init__]. *)
Definition snapshot_exists (dsk : Disk) : bool :=
  exists_file (index_file dsk) && exists_file (metadata_file dsk).

(** States of a deployment: a first process starts on a directory without a
    snapshot; processes add and delete; a new process may be started at any
    time on the directory as the previous ones left it. *)
Inductive reachable : System -> Prop :=
| reach_fresh dim dsk :
    snapshot_exists dsk = false -> reachable (mkSystem (fresh dim) dsk)
| reach_restart w dim s' :
    reachable w -> init dim (disk w) = Ok s' -> reachable (mkSystem s' (disk w))
| reach_exec w o :
    reachable w -> reachable (exec o w).

(** What may happen after a point in time without [doc] being added again. *)
Inductive later_without_add (doc : string) (w : System) : System -> Prop :=
| lwa_now : later_without_add doc w w
| lwa_add w' doc' embedding md :
    later_without_add doc w w' -> doc' <> doc ->
    later_without_add doc w (snd (add_document doc' embedding md w'))
| lwa_delete w' doc' :
    later_without_add doc w w' ->
    later_without_add doc w (snd (delete_document doc' w'))
| lwa_restart w' dim s' :
    later_without_add doc w w' -> init dim (disk w') = Ok s' ->
    later_without_add doc w (mkSystem s' (disk w')).

(** Every recorded position is a slot of the index. *)
Definition positions_in_range (ix : IndexFlatL2) (m : pydict) : Prop :=
  Forall (fun kv => 0 <= faiss_id (snd kv) < ntotal ix) m.

(** Number of live documents. *)
Definition live_count (self : VectorStore) : Z :=
  Z.of_nat (length (metadata self)).

(** Order of the index results: closer first, lower position first among
    equal distances. *)
Definition hit_before (h1 h2 : hit) : Prop :=
  (fst h1 < fst h2)%Q \/ (fst h1 == fst h2 /\ snd h1 < snd h2).

(** The slots of a result array that hold a position. *)
Definition valid_hits (hits : list hit) : list hit :=
  filter (fun h => 0 <=? snd h) hits.

(** [doc] is recorded neither in the store object nor in the metadata file. *)
Definition absent (doc : string) (w : System) : Prop :=
  ~ In doc (keys (metadata (store w))) /\
  forall m, metadata_file (disk w) = Some (Readable m) -> ~ In doc (keys m).

(** [P] relates index and metadata table, both in the store object and in a
    snapshot on disk. *)
Definition holds_everywhere (P : IndexFlatL2 -> pydict -> Prop) (w : System) : Prop :=
  P (index (store w)) (metadata (store w)) /\
  forall ix m,
    index_file (disk w) = Some (Readable ix) ->
    metadata_file (disk w) = Some (Readable m) ->
    P ix m.

(** A small deployment used in the examples: dimension 1, no files. *)
Definition empty_disk : Disk := mkDisk None None.
Definition w0 : System := mkSystem (fresh 1) empty_disk.
Definition w_a : System := exec (Add "a" [0%Q] None) w0.
Definition w_ab : System := exec (Add "b" [1%Q] None) w_a.
Definition w_b : System := exec (Delete "a") w_ab.

(** ** The document processor ([app/services/document_processor.py])

    A Python [str] is a [string]; its characters are the code points below
    256.  The four model pipelines are fields of the object holding callables;
    the PDF, DOCX and text readers are the files as those libraries read them.
    A call returns a value or raises. *)

Inductive exception : Type :=
| Exception (class_name : string) (message : string).

(** [str(e)] *)
Definition str_of (e : exception) : string :=
  match e with Exception _ message => message end.

Inductive outcome (A : Type) : Type :=
| Returns (a : A)
| Raises (e : exception).
Arguments Returns {A} a.
Arguments Raises {A} e.

(** One item of the NER pipeline: the keys ['entity'] and ['word']. *)
Record NerEntity : Type := mkEntity {
  entity : string;
  word : string
}.

(** One item of a classification pipeline: the keys ['label'] and ['score']. *)
Record Labelled : Type := mkLabelled {
  label : string;
  score : Q
}.

Record DocumentProcessor : Type := mkProcessor {
  summarizer : string -> outcome (list string);   (* the ['summary_text'] of each item *)
  ner : string -> outcome (list NerEntity);
  classifier : string -> outcome (list Labelled);
  sentiment_analyzer : string -> outcome (list Labelled)
}.

(** What the file readers give for a path. *)
Record FileSystem : Type := mkFiles {
  pdf_page_texts : string -> outcome (list string);     (* [extract_text()] of each page *)
  docx_paragraph_texts : string -> outcome (list string); (* [paragraph.text] of each paragraph *)
  read_utf8 : string -> outcome string                   (* [open(path).read()] *)
}.

(** [str.isspace] of one character (code points below 256). *)
Definition isspace (c : ascii) : bool :=
  existsb (Nat.eqb (nat_of_ascii c))
          [9; 10; 11; 12; 13; 28; 29; 30; 31; 32; 133; 160]%nat.

Fixpoint lstrip (s : string) : string :=
  match s with
  | EmptyString => EmptyString
  | String c s' => if isspace c then lstrip s' else s
  end.

Fixpoint rstrip (s : string) : string :=
  match s with
  | EmptyString => EmptyString
  | String c s' =>
      match rstrip s' with
      | EmptyString => if isspace c then EmptyString else String c EmptyString
      | r => String c r
      end
  end.

(** [s.strip()] *)
Definition strip (s : string) : string := rstrip (lstrip s).

(** [s.split()]: the maximal runs of characters that are not whitespace;
    [cur] is the run being read. *)
Fixpoint split_from (cur : string) (s : string) : list string :=
  match s with
  | EmptyString => match cur with EmptyString => [] | _ => [cur] end
  | String c s' =>
      if isspace c then
        match cur with
        | EmptyString => split_from EmptyString s'
        | _ => cur :: split_from EmptyString s'
        end
      else split_from (cur ++ String c EmptyString)%string s'
  end.

Definition split (s : string) : list string := split_from EmptyString s.

(** [text[:1000] if len(text) > 1000 else text], the first step of the four
    analysis methods. *)
Definition first_part (text : string) : string :=
  if (1000 <? String.length text)%nat then substring 0 1000 text else text.

(** [_process_scanned_pdf] *)
Definition _process_scanned_pdf (file_path : string) : string :=
  "This appears to be a scanned document. OCR processing would extract text here.".

(** [_process_pdf] *)
Definition _process_pdf (fs : FileSystem) (file_path : string) : outcome string :=
  match pdf_page_texts fs file_path with
  | Raises e => Raises e
  | Returns pages =>
      let text :=
        fold_left (fun text page => (text ++ (page ++ String "010"%char EmptyString))%string)
                  pages EmptyString in
      if (String.length (strip text) <? 100)%nat
      then Returns (_process_scanned_pdf file_path)
      else Returns text
  end.

(** [_process_docx] *)
Definition _process_docx (fs : FileSystem) (file_path : string) : outcome string :=
  match docx_paragraph_texts fs file_path with
  | Raises e => Raises e
  | Returns paragraphs => Returns (String.concat (String "010"%char EmptyString) paragraphs)
  end.

(** [_process_txt] *)
Definition _process_txt (fs : FileSystem) (file_path : string) : outcome string :=
  read_utf8 fs file_path.

(** [_process_image] *)
Definition _process_image (fs : FileSystem) (file_path : string) : outcome string :=
  Returns "This is an image document. OCR processing would extract text here.".

(** [self.supported_types] *)
Definition supported_types : list (string * (FileSystem -> string -> outcome string)) :=
  [ ("application/pdf", _process_pdf);
    ("application/vnd.openxmlformats-officedocument.wordprocessingml.document",
     _process_docx);
    ("text/plain", _process_txt);
    ("image/jpeg", _process_image);
    ("image/png", _process_image);
    ("image/tiff", _process_image) ].

Fixpoint lookup {A} (table : list (string * A)) (key : string) : option A :=
  match table with
  | [] => None
  | (k, v) :: rest => if String.eqb k key then Some v else lookup rest key
  end.

(** [_generate_summary] *)
Definition _generate_summary (self : DocumentProcessor) (text : string) : string :=
  match summarizer self (first_part text) with
  | Returns (summary_text :: _) => summary_text
  | Returns [] => ("Could not generate summary: " ++ "list index out of range")%string
  | Raises e => ("Could not generate summary: " ++ str_of e)%string
  end.

(** One turn of the grouping loop of [_extract_entities]. *)
Fixpoint add_entity (entities : list (string * list string))
    (entity_type entity_text : string) : list (string * list string) :=
  match entities with
  | [] => [(entity_type, [entity_text])]
  | (t, texts) :: rest =>
      if String.eqb t entity_type then
        (t, if existsb (String.eqb entity_text) texts then texts
            else texts ++ [entity_text]) :: rest
      else (t, texts) :: add_entity rest entity_type entity_text
  end.

Definition group_entities (entities_raw : list NerEntity) : list (string * list string) :=
  fold_left (fun entities e => add_entity entities (entity e) (word e)) entities_raw [].

(** [_extract_entities] *)
Definition _extract_entities (self : DocumentProcessor) (text : string)
  : list (string * list string) :=
  match ner self (first_part text) with
  | Returns entities_raw => group_entities entities_raw
  | Raises e => [("ERROR", [("Could not extract entities: " ++ str_of e)%string])]
  end.

(** The dicts returned by [_classify_document] and [_analyze_sentiment]. *)
Record Classification : Type := mkClassification {
  category : string;
  confidence : Q;
  error : option string
}.

Record Sentiment : Type := mkSentiment {
  sentiment_label : string;        (* key ["sentiment"] *)
  sentiment_confidence : Q;        (* key ["confidence"] *)
  sentiment_error : option string  (* key ["error"] *)
}.

(** [_classify_document] *)
Definition _classify_document (self : DocumentProcessor) (text : string) : Classification :=
  match classifier self (first_part text) with
  | Returns (c :: _) => mkClassification (label c) (score c) None
  | Returns [] => mkClassification "Unknown" 0 (Some "list index out of range")
  | Raises e => mkClassification "Unknown" 0 (Some (str_of e))
  end.

(** [_analyze_sentiment] *)
Definition _analyze_sentiment (self : DocumentProcessor) (text : string) : Sentiment :=
  match sentiment_analyzer self (first_part text) with
  | Returns (c :: _) => mkSentiment (label c) (score c) None
  | Returns [] => mkSentiment "Unknown" 0 (Some "list index out of range")
  | Raises e => mkSentiment "Unknown" 0 (Some (str_of e))
  end.

(** The dict returned by [process_document]. *)
Record ProcessResult : Type := mkProcessResult {
  text_preview : string;   (* key ["text"] *)
  word_count : nat;
  character_count : nat;
  summary : string;
  entities : list (string * list string);
  classification : Classification;
  sentiment : Sentiment
}.

(** [process_document] *)
Definition process_document (self : DocumentProcessor) (fs : FileSystem)
    (file_path content_type : string) : outcome ProcessResult :=
  match lookup supported_types content_type with
  | None => Raises (Exception "ValueError" ("Unsupported file type: " ++ content_type)%string)
  | Some extract =>
      match extract fs file_path with
      | Raises e => Raises e
      | Returns text =>
          Returns
            (mkProcessResult
               (if (1000 <? String.length text)%nat
                then (substring 0 1000 text ++ "...")%string else text)
               (length (split text))
               (String.length text)
               (_generate_summary self text)
               (_extract_entities self text)
               (_classify_document self text)
               (_analyze_sentiment self text))
      end
  end.

(** The characters of [s] that are not whitespace, in order. *)
Fixpoint remove_spaces (s : string) : string :=
  match s with
  | EmptyString => EmptyString
  | String c s' => if isspace c then remove_spaces s' else String c (remove_spaces s')
  end.

(** [entity_text in entities[entity_type]] *)
Definition has_entity (entities : list (string * list string))
    (entity_type entity_text : string) : Prop :=
  exists texts, In (entity_type, texts) entities /\ In entity_text texts.

(** A processor whose summarizer fails, whose NER finds the same name twice
    and a place, whose classifier returns nothing; and a directory with a text
    file and an empty PDF. *)
Definition demo_processor : DocumentProcessor :=
  mkProcessor
    (fun _ => Raises (Exception "RuntimeError" "model not loaded"))
    (fun _ => Returns [mkEntity "I-PER" "Ada"; mkEntity "I-LOC" "London";
                       mkEntity "I-PER" "Ada"; mkEntity "I-PER" "Byron"])
    (fun _ => Returns [])
    (fun text => Returns [mkLabelled "POSITIVE" (Z.of_nat (String.length text) # 1)]).

(** A text of 1000 characters. *)
Definition thousand_a : string := string_of_list_ascii (repeat "a"%char 1000).

Definition two_pages : list string :=
  [substring 0 60 thousand_a; substring 0 60 thousand_a].

Definition demo_files : FileSystem :=
  mkFiles
    (fun path => if String.eqb path "empty.pdf" then Returns []
                 else if String.eqb path "report.pdf" then Returns two_pages
                 else Raises (Exception "FileNotFoundError" path))
    (fun path => Raises (Exception "PackageNotFoundError" path))
    (fun path => if String.eqb path "notes.txt" then Returns "  Ada  met Byron in London "
                 else Raises (Exception "FileNotFoundError" path)).


(** The range in which the rational distances are the program's: when all
    components are integers of absolute value at most [B] and
    [n * (2 * B) ^ 2 <= 2 ^ 24] for the dimension [n], the cast to float32
    changes nothing and every difference, square and partial sum of a
    distance, in whatever order it is accumulated, is an integer of at most
    24 bits, which float32 computes without rounding, underflow or overflow. *)
Definition int_component (B : Z) (x : Q) : Prop :=
  exists z : Z, x = inject_Z z /\ Z.abs z <= B.

Definition float32_exact (B n : Z) (vs : list vector) : Prop :=
  n * (2 * B) ^ 2 <= 2 ^ 24 /\ Forall (Forall (int_component B)) vs.

(** The position recorded for an entry, and the table recording no position
    twice. *)
Definition entry_position (kv : string * DocEntry) : Z := faiss_id (snd kv).

Definition positions_unique (m : pydict) : Prop := NoDup (map entry_position m).

(** Both facts about the recorded positions. *)
Definition positions_ok (ix : IndexFlatL2) (m : pydict) : Prop :=
  positions_in_range ix m /\ positions_unique m.

(** The scenarios of dimension 4: three unit vectors. *)
Definition e1 : vector := [1%Q; 0%Q; 0%Q; 0%Q].
Definition e2 : vector := [0%Q; 1%Q; 0%Q; 0%Q].
Definition e3 : vector := [0%Q; 0%Q; 1%Q; 0%Q].
Definition s0 : System := mkSystem (fresh 4) empty_disk.
Definition s3 : System :=
  run [Add "doc1" e1 None; Add "doc2" e2 None; Add "doc3" e3 None] s0.

(** What a caller sees of a result list: ids, ranks, and whether each
    similarity equals the expected one. *)
Definition ids_and_ranks (r : result (list SearchResult)) : list (string * nat) :=
  match r with
  | Ok rs => map (fun x => (document_id x, rank x)) rs
  | Err _ => []
  end.

Definition similarities_are (r : result (list SearchResult)) (qs : list Q) : bool :=
  match r with
  | Ok rs =>
      (length rs =? length qs)%nat &&
      forallb (fun p => Qeq_bool (similarity (fst p)) (snd p)) (combine rs qs)
  | Err _ => false
  end.

(** Case analysis of one turn of the loop. *)
Ltac loop_turn m idx :=
  let doc := fresh "doc" in
  let data := fresh "data" in
  let Hres := fresh "Hres" in
  let Htr := fresh "Htr" in
  destruct (resolve m idx) as [[doc data]|] eqn:Hres;
  [destruct (truthy doc) eqn:Htr|].

(** * Properties *)

(** ** Scenarios *)

Example scenario_add_then_search :
  fst (add_document "doc1" e1 None s0) = Ok 0 /\
  ids_and_ranks (search e1 1 (store (exec (Add "doc1" e1 None) s0))) = [("doc1", 1%nat)] /\
  similarities_are (search e1 1 (store (exec (Add "doc1" e1 None) s0))) [1%Q] = true.
Proof. repeat split. Qed.

Example scenario_three_documents :
  ids_and_ranks (search e2 2 (store s3)) = [("doc2", 1%nat); ("doc1", 2%nat)] /\
  similarities_are (search e2 2 (store s3)) [1%Q; (98 # 100)%Q] = true.
Proof. repeat split. Qed.

Example scenario_delete :
  fst (delete_document "doc1" s3) = true /\
  get_document_count (store (exec (Delete "doc1") s3)) = 3 /\
  ids_and_ranks (search e1 3 (store (exec (Delete "doc1") s3)))
    = [("doc2", 2%nat); ("doc3", 3%nat)].
Proof. repeat split. Qed.

Example scenario_distances :
  exists hits,
    IndexFlatL2_search (index (store s3)) e2 4 = Ok hits /\
    map (fun h : hit => (Qred (fst h), snd h)) (valid_hits hits)
      = [(0%Q, 1); (2%Q, 0); (2%Q, 2)] /\
    map snd hits = [1; 0; 2; -1].
Proof. eexists. split; [vm_compute; reflexivity|]. split; reflexivity. Qed.

Example scenario_restart :
  init 4 (disk s3) = Ok (store s3).
Proof. reflexivity. Qed.

Example scenario_limit_beyond_total :
  IndexFlatL2_search (index (store w_a)) [0%Q] 3
    = Ok [(fvec_L2sqr [0%Q] [0%Q], 0); padding_slot; padding_slot] /\
  ids_and_ranks (search [0%Q] 3 (store w_a)) = [("a", 1%nat)].
Proof. repeat split. Qed.

(** A document stored under the empty string is never returned: the test
    [if document_id:] takes the empty id for "not found". *)
Example scenario_empty_id :
  fst (add_document "" [0%Q] None w0) = Ok 0 /\
  search [0%Q] 1 (store (exec (Add "" [0%Q] None) w0)) = Ok [].
Proof. repeat split. Qed.

(** ** Dict lemmas *)

Lemma dict_contains_In (m : pydict) (k : string) :
  dict_contains m k = true <-> In k (keys m).
Proof.
  unfold dict_contains, keys. rewrite existsb_exists, in_map_iff. split.
  - intros [kv [Hin Heq]]. apply String.eqb_eq in Heq. now exists kv.
  - intros [kv [Heq Hin]]. exists kv. split; [assumption|]. now apply String.eqb_eq.
Qed.

Lemma keys_dict_del (m : pydict) (k k' : string) :
  In k' (keys (dict_del m k)) <-> In k' (keys m) /\ k' <> k.
Proof.
  unfold keys, dict_del. rewrite !in_map_iff. split.
  - intros [kv [Heq Hin]]. apply filter_In in Hin. destruct Hin as [Hin Hne].
    apply negb_true_iff, String.eqb_neq in Hne. subst k'. split; [|assumption].
    now exists kv.
  - intros [[kv [Heq Hin]] Hne]. exists kv. split; [assumption|].
    apply filter_In. split; [assumption|].
    apply negb_true_iff, String.eqb_neq. now rewrite Heq.
Qed.

Lemma keys_dict_set (m : pydict) (k k' : string) (v : DocEntry) :
  In k' (keys (dict_set m k v)) <-> In k' (keys m) \/ k' = k.
Proof.
  induction m as [|[k0 v0] m IH]; simpl.
  - intuition.
  - destruct (String.eqb_spec k0 k) as [->|Hne]; simpl.
    + intuition.
    + rewrite IH. intuition.
Qed.

Lemma keys_dict_set_present (m : pydict) (k : string) (v : DocEntry) :
  In k (keys m) -> keys (dict_set m k v) = keys m.
Proof.
  induction m as [|[k0 v0] m IH]; simpl; [tauto|].
  intros Hin. destruct (String.eqb_spec k0 k) as [->|Hne]; simpl; [reflexivity|].
  f_equal. apply IH. destruct Hin; [contradiction|assumption].
Qed.

Lemma dict_get_set_same (m : pydict) (k : string) (v : DocEntry) :
  dict_get (dict_set m k v) k = Some v.
Proof.
  induction m as [|[k0 v0] m IH]; simpl.
  - now rewrite String.eqb_refl.
  - destruct (String.eqb_spec k0 k) as [->|Hne]; simpl.
    + now rewrite String.eqb_refl.
    + destruct (String.eqb_spec k0 k); [contradiction|assumption].
Qed.

Lemma dict_get_In (m : pydict) (k : string) (v : DocEntry) :
  dict_get m k = Some v -> In (k, v) m.
Proof.
  induction m as [|[k0 v0] m IH]; simpl; [discriminate|].
  destruct (String.eqb_spec k0 k) as [->|Hne].
  - intros [= ->]. now left.
  - intros H. right. now apply IH.
Qed.

Lemma dict_set_In (m : pydict) (k : string) (v : DocEntry) (kv : string * DocEntry) :
  In kv (dict_set m k v) -> In kv m \/ kv = (k, v).
Proof.
  induction m as [|[k0 v0] m IH]; simpl.
  - intuition.
  - destruct (String.eqb_spec k0 k) as [->|Hne]; simpl; intuition.
Qed.

Lemma dict_wf_set (m : pydict) (k : string) (v : DocEntry) :
  dict_wf m -> dict_wf (dict_set m k v).
Proof.
  unfold dict_wf. induction m as [|[k0 v0] m IH]; simpl; intros Hwf.
  - constructor; [intros []|constructor].
  - inversion Hwf as [|? ? Hnin Hnd]; subst.
    destruct (String.eqb_spec k0 k) as [->|Hne]; simpl.
    + now constructor.
    + constructor; [|now apply IH].
      intros Hin. apply keys_dict_set in Hin. destruct Hin as [Hin| ->]; auto.
Qed.

Lemma dict_wf_del (m : pydict) (k : string) : dict_wf m -> dict_wf (dict_del m k).
Proof.
  unfold dict_wf, dict_del, keys. induction m as [|[k0 v0] m IH]; simpl; intros Hwf.
  - constructor.
  - inversion Hwf as [|? ? Hnin Hnd]; subst.
    destruct (String.eqb_spec k0 k) as [->|Hne]; simpl; [now apply IH|].
    constructor; [|now apply IH].
    intros Hin. apply Hnin. apply in_map_iff in Hin. destruct Hin as [kv [Heq Hin]].
    apply filter_In in Hin. apply in_map_iff. exists kv. tauto.
Qed.

Lemma dict_del_length (m : pydict) (k : string) :
  dict_wf m -> In k (keys m) ->
  S (length (dict_del m k)) = length m.
Proof.
  unfold dict_wf, dict_del, keys. induction m as [|[k0 v0] m IH]; simpl; intros Hwf Hin.
  - contradiction.
  - inversion Hwf as [|? ? Hnin Hnd]; subst.
    destruct (String.eqb_spec k0 k) as [->|Hne]; simpl.
    + f_equal. clear IH Hwf Hin Hnd. induction m as [|[k1 v1] m IH]; simpl; [reflexivity|].
      simpl in Hnin. destruct (String.eqb_spec k1 k) as [->|Hne]; simpl.
      * exfalso. apply Hnin. now left.
      * f_equal. apply IH. tauto.
    + f_equal. apply IH; [assumption|]. destruct Hin; [contradiction|assumption].
Qed.

(** ** Counting *)

Lemma delete_document_true (doc : string) (w w' : System) :
  delete_document doc w = (true, w') ->
  In doc (keys (metadata (store w))) /\
  w' = mkSystem
         (mkStore (dimension (store w)) (index (store w))
                  (dict_del (metadata (store w)) doc))
         (mkDisk (Some (Readable (index (store w))))
                 (Some (Readable (dict_del (metadata (store w)) doc)))).
Proof.
  unfold delete_document.
  destruct (dict_contains (metadata (store w)) doc) eqn:Hc; simpl.
  - intros [= <-]. split; [now apply dict_contains_In|reflexivity].
  - discriminate.
Qed.

Lemma delete_document_false (doc : string) (w w' : System) :
  delete_document doc w = (false, w') ->
  ~ In doc (keys (metadata (store w))) /\ w' = w.
Proof.
  unfold delete_document.
  destruct (dict_contains (metadata (store w)) doc) eqn:Hc; simpl.
  - discriminate.
  - intros [= <-]. split; [|reflexivity].
    intros Hin. apply dict_contains_In in Hin. congruence.
Qed.

(** C1, the claim as stated fails: in the store holding the single document
    "a", [delete_document "a"] returns true, and afterwards the count is still
    1: it is neither one less than before nor the number of live documents
    (which is 0). *)
Lemma count_after_delete_counterexample :
  fst (delete_document "a" w_a) = true /\
  get_document_count (store w_a) = 1 /\
  get_document_count (store (snd (delete_document "a" w_a))) = 1 /\
  get_document_count (store (snd (delete_document "a" w_a)))
    <> get_document_count (store w_a) - 1 /\
  live_count (store (snd (delete_document "a" w_a))) = 0.
Proof. repeat split. discriminate. Qed.

(** C1, amended: [get_document_count] is the raw vector count of the index.
    A [delete_document] that returns true removes one live document (one
    metadata entry) and leaves the count as it was. *)
Theorem delete_keeps_vector_count (w w' : System) (doc : string) :
  dict_wf (metadata (store w)) ->
  delete_document doc w = (true, w') ->
  get_document_count (store w') = ntotal (index (store w')) /\
  get_document_count (store w') = get_document_count (store w) /\
  live_count (store w') = live_count (store w) - 1.
Proof.
  intros Hwf Hdel. apply delete_document_true in Hdel. destruct Hdel as [Hin ->].
  unfold get_document_count, live_count; simpl. repeat split.
  pose proof (dict_del_length _ _ Hwf Hin) as Hlen. lia.
Qed.

Lemma dict_wf_w_a : dict_wf (metadata (store w_a)).
Proof. repeat constructor. simpl. tauto. Defined.

Lemma delete_keeps_vector_count_witness :
  get_document_count (store (snd (delete_document "a" w_a))) =
    ntotal (index (store (snd (delete_document "a" w_a)))) /\
  get_document_count (store (snd (delete_document "a" w_a))) =
    get_document_count (store w_a) /\
  live_count (store (snd (delete_document "a" w_a))) = live_count (store w_a) - 1.
Proof.
  apply (delete_keeps_vector_count w_a _ "a").
  - exact dict_wf_w_a.
  - reflexivity.
Defined.

(** ** Loading *)

(** C2, the claim as stated fails: with the index file present and the
    metadata file missing, the constructor returns the fresh empty store; and
    with both files present, an index without vectors and a metadata table
    that points at position 7, it returns that inconsistent store. *)
Lemma load_partial_snapshot_counterexample :
  let ix := mkIndex 1 [[0%Q]] in
  let m := [("a", mkEntry 7 [])] in
  init 1 (mkDisk (Some (Readable ix)) None) = Ok (fresh 1) /\
  init 1 (mkDisk None (Some (Readable m))) = Ok (fresh 1) /\
  init 1 (mkDisk (Some (Readable (mkIndex 1 []))) (Some (Readable m)))
    = Ok (mkStore 1 (mkIndex 1 []) m) /\
  ~ positions_in_range (mkIndex 1 []) m.
Proof.
  repeat split. intros H. inversion H as [|? ? Hr _]; subst.
  unfold ntotal in Hr; simpl in Hr. lia.
Qed.

(** C2, amended: when at most one of the two files is present the constructor
    returns a fresh empty store; when both are present and readable it returns
    their contents as they are, without comparing them; it fails only when
    both are present and one cannot be read, with the reader's exception. *)
Theorem init_cases (dim : Z) (dsk : Disk) :
  (snapshot_exists dsk = false -> init dim dsk = Ok (fresh dim)) /\
  (forall ix m,
     index_file dsk = Some (Readable ix) ->
     metadata_file dsk = Some (Readable m) ->
     init dim dsk = Ok (mkStore dim ix m)) /\
  (forall e, init dim dsk = Err e ->
     snapshot_exists dsk = true /\
     ((index_file dsk = Some Unreadable /\ e = RuntimeError_read_index) \/
      (metadata_file dsk = Some Unreadable /\ e = UnpicklingError))).
Proof.
  unfold init, snapshot_exists, _load_index, pickle_load.
  destruct dsk as [[[ix|]|] [[m|]|]]; simpl; repeat split;
    try discriminate; try congruence; intros;
    repeat match goal with
           | H : Some _ = Some _ |- _ => injection H as H
           | H : Readable _ = Readable _ |- _ => injection H as H
           end; subst; try reflexivity; try discriminate;
    match goal with
    | H : Err _ = Err _ |- _ => injection H as H; subst; auto
    end.
Qed.

Lemma init_cases_witness :
  init 768 (mkDisk (Some (Readable (mkIndex 768 []))) None) = Ok (fresh 768) /\
  init 768 (mkDisk (Some (Readable (mkIndex 768 []))) (Some (Readable [])))
    = Ok (mkStore 768 (mkIndex 768 []) []) /\
  snapshot_exists (mkDisk (Some Unreadable) (Some (Readable []))) = true.
Proof.
  split; [|split].
  - apply (proj1 (init_cases 768 _)). reflexivity.
  - apply (proj1 (proj2 (init_cases 768 _))); reflexivity.
  - apply (proj2 (proj2 (init_cases 768 (mkDisk (Some Unreadable) (Some (Readable [])))))
             RuntimeError_read_index).
    reflexivity.
Defined.

(** ** Adding *)

Lemma ntotal_add (ix ix' : IndexFlatL2) (x : vector) :
  IndexFlatL2_add ix x = Ok ix' ->
  d ix' = d ix /\ xb ix' = xb ix ++ [x] /\ ntotal ix' - 1 = ntotal ix.
Proof.
  unfold IndexFlatL2_add. destruct (shape0 x =? d ix); [|discriminate].
  intros [= <-]. unfold ntotal; simpl. rewrite length_app; simpl. repeat split. lia.
Qed.

(** What a successful [add_document] leaves behind. *)
Lemma add_document_ok (doc : string) (e : vector) (md : option metadata_t)
    (w w' : System) (idx : Z) :
  add_document doc e md w = (Ok idx, w') ->
  let self := store w in
  let ix' := mkIndex (d (index self)) (xb (index self) ++ [e]) in
  let m' := dict_set (metadata self) doc (mkEntry (ntotal (index self)) (or_empty md)) in
  shape0 e = dimension self /\ shape0 e = d (index self) /\
  idx = ntotal (index self) /\
  w' = mkSystem (mkStore (dimension self) ix' m')
                (mkDisk (Some (Readable ix')) (Some (Readable m'))).
Proof.
  unfold add_document, IndexFlatL2_add.
  destruct (Z.eqb_spec (shape0 e) (dimension (store w))) as [Hdim|Hdim]; simpl;
    [|discriminate].
  destruct (Z.eqb_spec (shape0 e) (d (index (store w)))) as [Hd|Hd]; [|discriminate].
  unfold ntotal; simpl. rewrite length_app; simpl.
  replace (Z.of_nat (length (xb (index (store w))) + 1) - 1)
    with (Z.of_nat (length (xb (index (store w))))) by lia.
  intros [= <- <-]. repeat split; assumption.
Qed.

(** A failing [add_document] changes nothing. *)
Lemma add_document_err (doc : string) (e : vector) (md : option metadata_t)
    (w w' : System) (x : exn) :
  add_document doc e md w = (Err x, w') -> w' = w.
Proof.
  unfold add_document.
  destruct (shape0 e =? dimension (store w)); simpl.
  - destruct (IndexFlatL2_add (index (store w)) e); [discriminate|].
    now intros [= _ <-].
  - now intros [= _ <-].
Qed.

Lemma add_document_run (doc : string) (e : vector) (md : option metadata_t) (w : System) :
  shape0 e = dimension (store w) ->
  d (index (store w)) = dimension (store w) ->
  let self := store w in
  let ix' := mkIndex (d (index self)) (xb (index self) ++ [e]) in
  let m' := dict_set (metadata self) doc (mkEntry (ntotal (index self)) (or_empty md)) in
  add_document doc e md w =
    (Ok (ntotal (index self)),
     mkSystem (mkStore (dimension self) ix' m')
              (mkDisk (Some (Readable ix')) (Some (Readable m')))).
Proof.
  intros Hdim Hd. simpl. unfold add_document, IndexFlatL2_add.
  rewrite Hd, Hdim, Z.eqb_refl; simpl.
  unfold ntotal; simpl. rewrite length_app; simpl. unfold _save_index; simpl.
  replace (Z.of_nat (length (xb (index (store w))) + 1) - 1)
    with (Z.of_nat (length (xb (index (store w))))) by lia.
  reflexivity.
Qed.

(** C3, the claim as stated fails: adding "a" a second time succeeds, returns
    position 1, and the record of "a" now points at position 1 instead of 0. *)
Lemma add_duplicate_counterexample :
  dict_get (metadata (store w_a)) "a" = Some (mkEntry 0 []) /\
  fst (add_document "a" [1%Q] None w_a) = Ok 1 /\
  dict_get (metadata (store (snd (add_document "a" [1%Q] None w_a)))) "a"
    = Some (mkEntry 1 []).
Proof. repeat split. Qed.

(** C3, amended: in a store whose index has the configured dimension,
    [add_document] with a [document_id] that is already present (and an
    embedding of that dimension) succeeds: the vector is appended,
    the new position is returned, and the record of that [document_id] is
    overwritten with the new position and metadata; no key is added and the
    old vector stays in the index. *)
Theorem add_existing_overwrites (doc : string) (e : vector)
    (md : option metadata_t) (w : System) :
  In doc (keys (metadata (store w))) ->
  shape0 e = dimension (store w) ->
  d (index (store w)) = dimension (store w) ->
  exists w',
    add_document doc e md w = (Ok (ntotal (index (store w))), w') /\
    dict_get (metadata (store w')) doc
      = Some (mkEntry (ntotal (index (store w))) (or_empty md)) /\
    keys (metadata (store w')) = keys (metadata (store w)) /\
    xb (index (store w')) = xb (index (store w)) ++ [e].
Proof.
  intros Hin Hdim Hd. eexists. split; [now apply add_document_run|]. simpl.
  split; [apply dict_get_set_same|]. split; [now apply keys_dict_set_present|reflexivity].
Qed.

Lemma add_existing_overwrites_witness :
  exists w',
    add_document "a" [1%Q] (Some [("k", "v")]) w_a = (Ok 1, w') /\
    dict_get (metadata (store w')) "a" = Some (mkEntry 1 [("k", "v")]) /\
    keys (metadata (store w')) = ["a"] /\
    xb (index (store w')) = [[0%Q]; [1%Q]].
Proof.
  apply (add_existing_overwrites "a" [1%Q] (Some [("k", "v")]) w_a).
  - simpl. left. reflexivity.
  - reflexivity.
  - reflexivity.
Defined.

(** C9: an embedding whose length differs from the configured dimension makes
    [add_document] raise the dimension-mismatch [ValueError], and the store
    object and both files are exactly as before; so is the count. *)
Theorem add_wrong_dimension_unchanged (doc : string) (e : vector)
    (md : option metadata_t) (w : System) :
  shape0 e <> dimension (store w) ->
  add_document doc e md w
    = (Err (ValueError_Embedding_dimension_mismatch (dimension (store w)) (shape0 e)), w) /\
  get_document_count (store (snd (add_document doc e md w)))
    = get_document_count (store w).
Proof.
  intros Hne. unfold add_document.
  destruct (Z.eqb_spec (shape0 e) (dimension (store w))) as [Heq|_]; [contradiction|].
  simpl. split; reflexivity.
Qed.

Lemma add_wrong_dimension_unchanged_witness :
  add_document "doc1" [1%Q; 0%Q; 0%Q] None (mkSystem (fresh 4) empty_disk)
    = (Err (ValueError_Embedding_dimension_mismatch 4 3),
       mkSystem (fresh 4) empty_disk) /\
  get_document_count
    (store (snd (add_document "doc1" [1%Q; 0%Q; 0%Q] None (mkSystem (fresh 4) empty_disk))))
    = 0.
Proof.
  apply (add_wrong_dimension_unchanged "doc1" [1%Q; 0%Q; 0%Q] None
           (mkSystem (fresh 4) empty_disk)).
  simpl. discriminate.
Defined.

(** ** Searching: the result loop *)

Lemma resolve_In (m : pydict) (idx : Z) (doc : string) (data : DocEntry) :
  resolve m idx = Some (doc, data) -> In (doc, data) m /\ faiss_id data = idx.
Proof.
  unfold resolve. intros H. apply find_some in H. simpl in H.
  destruct H as [Hin Heq]. split; [assumption|]. now apply Z.eqb_eq.
Qed.

Lemma prepare_results_ids (m : pydict) (hits : list hit) (i : nat) :
  Forall (fun r => In (document_id r) (keys m)) (prepare_results m i hits).
Proof.
  revert i. induction hits as [|[dist idx] hits IH]; intros i; simpl.
  - constructor.
  - loop_turn m idx; auto. constructor; [|apply IH]. simpl.
    apply resolve_In in Hres. destruct Hres as [Hin _].
    unfold keys. apply in_map_iff. now exists (doc, data).
Qed.

Lemma prepare_results_origin (m : pydict) (hits : list hit) (i : nat) :
  Forall (fun r =>
            (i < rank r <= i + length hits)%nat /\
            exists dist idx data,
              nth_error hits (rank r - 1 - i) = Some (dist, idx) /\
              resolve m idx = Some (document_id r, data) /\
              similarity r = to_similarity dist /\
              result_metadata r = entry_metadata data)
         (prepare_results m i hits).
Proof.
  revert i. induction hits as [|[dist idx] hits IH]; intros i; simpl.
  - constructor.
  - assert (Htail : Forall (fun r =>
              (i < rank r <= i + S (length hits))%nat /\
              exists dist0 idx0 data,
                nth_error ((dist, idx) :: hits) (rank r - 1 - i) = Some (dist0, idx0) /\
                resolve m idx0 = Some (document_id r, data) /\
                similarity r = to_similarity dist0 /\
                result_metadata r = entry_metadata data)
             (prepare_results m (S i) hits)).
    { eapply Forall_impl; [|apply (IH (S i))]. simpl.
      intros r [Hr [dist0 [idx0 [data0 [Hnth Hrest]]]]]. split; [lia|].
      exists dist0, idx0, data0. split; [|assumption].
      replace (rank r - 1 - i)%nat with (S (rank r - 1 - S i)) by lia. exact Hnth. }
    loop_turn m idx; auto. constructor; [|assumption]. simpl. split; [lia|].
    exists dist, idx, data. replace (i + 1 - 1 - i)%nat with 0%nat by lia. simpl.
    repeat split. assumption.
Qed.

Lemma prepare_results_sorted (m : pydict) (hits : list hit) (i : nat) :
  StronglySorted lt (map rank (prepare_results m i hits)).
Proof.
  revert i. induction hits as [|[dist idx] hits IH]; intros i; simpl.
  - constructor.
  - loop_turn m idx; auto. simpl. constructor; [apply IH|].
    apply Forall_map. eapply Forall_impl; [|apply (prepare_results_origin m hits (S i))].
    simpl. intros r [Hr _]. lia.
Qed.

Lemma prepare_results_all_resolved (m : pydict) (hits : list hit) (i : nat) :
  Forall (fun h => exists doc data,
            resolve m (snd h) = Some (doc, data) /\ truthy doc = true) hits ->
  map rank (prepare_results m i hits) = seq (S i) (length hits).
Proof.
  revert i. induction hits as [|[dist idx] hits IH]; intros i Hall; simpl.
  - reflexivity.
  - inversion Hall as [|? ? [doc [data [Hres Htr]]] Hall']; subst. simpl in Hres.
    rewrite Hres, Htr. simpl. f_equal; [lia|]. now apply IH.
Qed.

Lemma IndexFlatL2_search_ok (ix : IndexFlatL2) (q : vector) (k : nat)
    (hits : list hit) :
  IndexFlatL2_search ix q k = Ok hits ->
  shape0 q = d ix /\ (1 <= k)%nat /\
  hits = found_hits ix q k ++ repeat padding_slot (k - length (found_hits ix q k)).
Proof.
  unfold IndexFlatL2_search.
  destruct (Z.eqb_spec (shape0 q) (d ix)) as [Hd|_]; [|discriminate].
  destruct k as [|k]; [discriminate|]. intros [= <-].
  split; [assumption|]. split; [lia|reflexivity].
Qed.


Lemma IndexFlatL2_search_length (ix : IndexFlatL2) (q : vector) (k : nat)
    (hits : list hit) :
  IndexFlatL2_search ix q k = Ok hits -> length hits = k.
Proof.
  intros Hhits. apply IndexFlatL2_search_ok in Hhits. destruct Hhits as [_ [_ ->]].
  rewrite length_app, repeat_length.
  assert (length (found_hits ix q k) <= k)%nat by apply firstn_le_length. lia.
Qed.

Lemma search_ok (q : vector) (limit : nat) (s : VectorStore) (rs : list SearchResult) :
  search q limit s = Ok rs ->
  exists hits,
    IndexFlatL2_search (index s) q limit = Ok hits /\
    rs = prepare_results (metadata s) 0 hits.
Proof.
  unfold search. destruct (negb (shape0 q =? dimension s)); [discriminate|].
  destruct (IndexFlatL2_search (index s) q limit) as [hits|]; [|discriminate].
  intros [= <-]. now exists hits.
Qed.

(** C4, the claim as stated fails: after adding "a" at [0] and "b" at [1]
    and deleting "a", the search for [0] with limit 2 returns the single
    document "b", and its rank is 2, not 1. *)
Lemma search_rank_counterexample :
  exists rs,
    search [0%Q] 2 (store w_b) = Ok rs /\
    map document_id rs = ["b"] /\
    map rank rs = [2%nat].
Proof. eexists. split; [vm_compute; reflexivity|]. split; reflexivity. Qed.

(** C4, amended: the rank of a result is the 1-based place of its hit in the
    list the index returned.  Hits that resolve to no document are left out of
    the results but keep their place in the numbering: the ranks are strictly
    increasing numbers between 1 and [limit], and they are 1, 2, 3, ... when
    every hit of the index resolves to a document. *)
Theorem search_ranks (q : vector) (limit : nat) (s : VectorStore)
    (rs : list SearchResult) :
  search q limit s = Ok rs ->
  exists hits,
    IndexFlatL2_search (index s) q limit = Ok hits /\
    length hits = limit /\
    StronglySorted lt (map rank rs) /\
    Forall (fun r =>
              (1 <= rank r <= limit)%nat /\
              exists dist idx data,
                nth_error hits (rank r - 1) = Some (dist, idx) /\
                resolve (metadata s) idx = Some (document_id r, data))
           rs /\
    (Forall (fun h => exists doc data,
               resolve (metadata s) (snd h) = Some (doc, data) /\ truthy doc = true)
            hits ->
     map rank rs = seq 1 (length rs)).
Proof.
  intros Hs. apply search_ok in Hs. destruct Hs as [hits [Hhits ->]].
  exists hits. pose proof (IndexFlatL2_search_length _ _ _ _ Hhits) as Hlen.
  repeat split; try assumption.
  - apply prepare_results_sorted.
  - eapply Forall_impl; [|apply (prepare_results_origin (metadata s) hits 0)].
    simpl. intros r [Hr [dist [idx [data [Hnth [Hres _]]]]]]. split; [lia|].
    exists dist, idx, data. rewrite Nat.sub_0_r in Hnth. now split.
  - intros Hall.
    pose proof (prepare_results_all_resolved (metadata s) hits 0 Hall) as Hranks.
    rewrite Hranks. f_equal.
    rewrite <- (length_map rank), Hranks, length_seq. reflexivity.
Qed.

Lemma search_ranks_witness :
  exists rs,
    search [0%Q] 2 (store w_ab) = Ok rs /\
    StronglySorted lt (map rank rs) /\
    Forall (fun r => (1 <= rank r <= 2)%nat) rs /\
    map rank rs = seq 1 (length rs).
Proof.
  eexists. split; [vm_compute; reflexivity|].
  destruct (search_ranks [0%Q] 2 (store w_ab) _ eq_refl)
    as [hits [Hhits [_ [Hsorted [Horigin Hall]]]]].
  split; [exact Hsorted|]. split.
  - eapply Forall_impl; [|exact Horigin]. simpl. tauto.
  - apply Hall. vm_compute in Hhits. injection Hhits as <-.
    repeat (constructor; [do 2 eexists; split; reflexivity|]). constructor.
Defined.

(** ** Steps of the system *)

Lemma init_ok (dim : Z) (dsk : Disk) (s : VectorStore) :
  init dim dsk = Ok s ->
  (snapshot_exists dsk = false /\ s = fresh dim) \/
  (exists ix m,
     index_file dsk = Some (Readable ix) /\
     metadata_file dsk = Some (Readable m) /\
     s = mkStore dim ix m).
Proof.
  unfold init, snapshot_exists, _load_index, pickle_load.
  destruct dsk as [[[ix|]|] [[m|]|]]; simpl; intros [= <-];
    try (left; split; reflexivity).
  right. exists ix, m. repeat split.
Qed.

(** The two outcomes of [add_document]. *)
Lemma add_document_cases (doc : string) (e : vector) (md : option metadata_t)
    (w : System) :
  snd (add_document doc e md w) = w \/
  snd (add_document doc e md w) =
    let self := store w in
    let ix' := mkIndex (d (index self)) (xb (index self) ++ [e]) in
    let m' := dict_set (metadata self) doc (mkEntry (ntotal (index self)) (or_empty md)) in
    mkSystem (mkStore (dimension self) ix' m')
             (mkDisk (Some (Readable ix')) (Some (Readable m'))).
Proof.
  destruct (add_document doc e md w) as [[idx|x] w'] eqn:Hadd; simpl.
  - right. apply add_document_ok in Hadd. simpl in Hadd. tauto.
  - left. now apply add_document_err in Hadd.
Qed.

(** The two outcomes of [delete_document]. *)
Lemma delete_document_cases (doc : string) (w : System) :
  snd (delete_document doc w) = w \/
  snd (delete_document doc w) =
    mkSystem
      (mkStore (dimension (store w)) (index (store w))
               (dict_del (metadata (store w)) doc))
      (mkDisk (Some (Readable (index (store w))))
              (Some (Readable (dict_del (metadata (store w)) doc)))).
Proof.
  destruct (delete_document doc w) as [[|] w'] eqn:Hdel; simpl.
  - right. now apply delete_document_true in Hdel.
  - left. now apply delete_document_false in Hdel.
Qed.

(** ** Deleted documents stay out of the results *)

Lemma absent_later (doc : string) (w w' : System) :
  absent doc w -> later_without_add doc w w' -> absent doc w'.
Proof.
  intros Habs Hlater. induction Hlater as
    [|w' doc' e md _ IH Hne|w' doc' _ IH|w' dim s' _ IH Hinit]; [assumption| | |].
  - destruct (add_document_cases doc' e md w') as [-> | ->]; [assumption|].
    destruct IH as [Hmem _]. simpl.
    assert (Hnew : ~ In doc (keys (dict_set (metadata (store w')) doc'
                     (mkEntry (ntotal (index (store w'))) (or_empty md))))).
    { intros Hin. apply keys_dict_set in Hin. destruct Hin as [Hin|Heq]; auto. }
    split; simpl; [assumption|]. now intros m [= <-].
  - destruct (delete_document_cases doc' w') as [-> | ->]; [assumption|].
    destruct IH as [Hmem _].
    assert (Hnew : ~ In doc (keys (dict_del (metadata (store w')) doc'))).
    { intros Hin. apply keys_dict_del in Hin. tauto. }
    split; simpl; [assumption|]. now intros m [= <-].
  - destruct IH as [Hmem Hdisk]. split; simpl; [|assumption].
    apply init_ok in Hinit. destruct Hinit as [[_ ->]|[ix [m [_ [Hm ->]]]]]; simpl.
    + tauto.
    + now apply Hdisk.
Qed.

(** C5: once [delete_document doc] has returned true, and as long as [doc]
    is not added again, whatever is added, deleted or restarted afterwards, no
    search returns [doc], for any query and any limit. *)
Theorem deleted_never_returned (doc : string) (w w1 w2 : System)
    (q : vector) (limit : nat) (rs : list SearchResult) :
  delete_document doc w = (true, w1) ->
  later_without_add doc w1 w2 ->
  search q limit (store w2) = Ok rs ->
  ~ In doc (map document_id rs).
Proof.
  intros Hdel Hlater Hs.
  assert (Habs : absent doc w1).
  { apply delete_document_true in Hdel. destruct Hdel as [_ ->].
    assert (Hnew : ~ In doc (keys (dict_del (metadata (store w)) doc))).
    { intros Hin. apply keys_dict_del in Hin. tauto. }
    split; simpl; [assumption|]. now intros m [= <-]. }
  apply (absent_later _ _ _ Habs) in Hlater. destruct Hlater as [Hmem _].
  apply search_ok in Hs. destruct Hs as [hits [_ ->]].
  intros Hin. apply in_map_iff in Hin. destruct Hin as [r [Hid Hr]].
  pose proof (prepare_results_ids (metadata (store w2)) hits 0) as Hids.
  rewrite Forall_forall in Hids. apply Hids in Hr. congruence.
Qed.

Lemma deleted_never_returned_witness :
  exists rs,
    search [0%Q] 3 (store (snd (add_document "c" [0%Q] None w_b))) = Ok rs /\
    ~ In "a" (map document_id rs).
Proof.
  eexists. split; [vm_compute; reflexivity|].
  apply (deleted_never_returned "a" w_ab w_b
           (snd (add_document "c" [0%Q] None w_b)) [0%Q] 3).
  - reflexivity.
  - apply lwa_add; [apply lwa_now|discriminate].
  - vm_compute. reflexivity.
Defined.

(** ** Saving and loading *)

(** C7: after any sequence of [add_document] and [delete_document], saving
    the store and constructing a new store on the same directory with the same
    dimension gives a store with the same count and, for every query and
    limit, the same search outcome (the same results with the same ranks and
    similarity values, or the same exception). *)
Theorem save_load_roundtrip (ops : list op) (w : System) :
  let w' := run ops w in
  exists s',
    init (dimension (store w')) (_save_index (store w') (disk w')) = Ok s' /\
    get_document_count s' = get_document_count (store w') /\
    forall q limit, search q limit s' = search q limit (store w').
Proof.
  intros w'. exists (store w'). split; [|split; reflexivity].
  destruct (store w') as [dim ix m]. reflexivity.
Qed.

(** ** Recorded positions are slots of the index *)

Lemma positions_in_range_set (ix : IndexFlatL2) (m : pydict) (doc : string)
    (e : vector) (md : metadata_t) :
  positions_in_range ix m ->
  positions_in_range (mkIndex (d ix) (xb ix ++ [e]))
                     (dict_set m doc (mkEntry (ntotal ix) md)).
Proof.
  unfold positions_in_range. rewrite !Forall_forall. intros Hm kv Hin.
  assert (Hn : ntotal (mkIndex (d ix) (xb ix ++ [e])) = ntotal ix + 1).
  { unfold ntotal; simpl. rewrite length_app; simpl. lia. }
  rewrite Hn. apply dict_set_In in Hin. destruct Hin as [Hin| ->].
  - specialize (Hm kv Hin). lia.
  - simpl. unfold ntotal. lia.
Qed.

Lemma positions_in_range_del (ix : IndexFlatL2) (m : pydict) (doc : string) :
  positions_in_range ix m -> positions_in_range ix (dict_del m doc).
Proof.
  unfold positions_in_range, dict_del. rewrite !Forall_forall.
  intros Hm kv Hin. apply filter_In in Hin. now apply Hm.
Qed.

Section Invariant.

Variable P : IndexFlatL2 -> pydict -> Prop.

Hypothesis P_fresh : forall dim, P (mkIndex dim []) [].
Hypothesis P_add : forall ix m doc e md,
  P ix m -> P (mkIndex (d ix) (xb ix ++ [e])) (dict_set m doc (mkEntry (ntotal ix) md)).
Hypothesis P_del : forall ix m doc, P ix m -> P ix (dict_del m doc).

(** A property that the empty store has and that adding and deleting keep
    holds in every reachable state, in memory and on disk. *)
Lemma reachable_invariant (w : System) : reachable w -> holds_everywhere P w.
Proof.
  intros Hr. induction Hr as [dim dsk Hno|w dim s' _ IH Hinit|w o _ IH].
  - split; simpl; [apply P_fresh|]. intros ix m Hix Hm.
    unfold snapshot_exists in Hno. rewrite Hix, Hm in Hno. discriminate.
  - destruct IH as [_ Hdisk]. split; simpl; [|assumption].
    apply init_ok in Hinit. destruct Hinit as [[_ ->]|[ix [m [Hix [Hm ->]]]]]; simpl.
    + apply P_fresh.
    + now apply Hdisk.
  - destruct IH as [Hmem Hdisk]. destruct o as [doc e md|doc]; simpl.
    + destruct (add_document_cases doc e md w) as [-> | ->]; [now split|].
      pose proof (P_add _ _ doc e (or_empty md) Hmem) as Hnew.
      split; simpl; [assumption|]. now intros ix m [= <-] [= <-].
    + destruct (delete_document_cases doc w) as [-> | ->]; [now split|].
      pose proof (P_del _ _ doc Hmem) as Hnew.
      split; simpl; [assumption|]. now intros ix m [= <-] [= <-].
Qed.

End Invariant.

Lemma reachable_positions (w : System) :
  reachable w -> holds_everywhere positions_in_range w.
Proof.
  apply reachable_invariant.
  - intros dim. constructor.
  - intros ix m doc e md. apply positions_in_range_set.
  - intros ix m doc. apply positions_in_range_del.
Qed.

(** The association list of a reachable store is a dict: no key twice. *)
Lemma reachable_dict_wf (w : System) :
  reachable w -> dict_wf (metadata (store w)).
Proof.
  intros Hr. apply (reachable_invariant (fun _ m => dict_wf m)) in Hr.
  - apply Hr.
  - intros dim. constructor.
  - intros ix m doc e md. apply dict_wf_set.
  - intros ix m doc. apply dict_wf_del.
Qed.

(** C10: in every state reached from a fresh store by adds, deletes and
    restarts on the saved snapshot, each [document_id] of the metadata table
    has a [faiss_id] that is at least 0 and less than the number of vectors of
    the index, and the index holds a vector in that slot. *)
Theorem recorded_positions_exist (w : System) (doc : string) (data : DocEntry) :
  reachable w ->
  dict_get (metadata (store w)) doc = Some data ->
  0 <= faiss_id data < ntotal (index (store w)) /\
  exists v, nth_error (xb (index (store w))) (Z.to_nat (faiss_id data)) = Some v.
Proof.
  intros Hr Hget. apply reachable_positions in Hr. destruct Hr as [Hmem _].
  apply dict_get_In in Hget. unfold positions_in_range in Hmem.
  rewrite Forall_forall in Hmem. specialize (Hmem _ Hget). simpl in Hmem.
  split; [assumption|].
  destruct (nth_error (xb (index (store w))) (Z.to_nat (faiss_id data))) as [v|] eqn:Hnth.
  - now exists v.
  - apply nth_error_None in Hnth. unfold ntotal in Hmem. lia.
Qed.

Lemma reachable_w_b : reachable w_b.
Proof.
  unfold w_b, w_ab, w_a. do 3 apply reach_exec. apply reach_fresh. reflexivity.
Defined.

Lemma recorded_positions_exist_witness :
  0 <= 1 < ntotal (index (store w_b)) /\
  exists v, nth_error (xb (index (store w_b))) (Z.to_nat 1) = Some v.
Proof.
  apply (recorded_positions_exist w_b "b" (mkEntry 1 [])).
  - exact reachable_w_b.
  - reflexivity.
Defined.

(** ** The index search *)

Section IndexSearch.

Variable q : vector.

Lemma distances_from_length (vs : list vector) (pos : Z) :
  length (distances_from q pos vs) = length vs.
Proof.
  revert pos. induction vs as [|v vs IH]; intros pos; simpl; [reflexivity|].
  now rewrite IH.
Qed.

Lemma distances_from_In (vs : list vector) (pos : Z) (h : hit) :
  In h (distances_from q pos vs) ->
  pos <= snd h < pos + Z.of_nat (length vs) /\
  exists v, nth_error vs (Z.to_nat (snd h - pos)) = Some v /\
            fst h = fvec_L2sqr q v.
Proof.
  revert pos. induction vs as [|v vs IH]; intros pos; simpl; [tauto|].
  intros [<-|Hin]; simpl.
  - split; [lia|]. exists v. rewrite Z.sub_diag. now split.
  - apply IH in Hin. destruct Hin as [Hr [v' [Hnth Hd]]]. split; [lia|].
    exists v'. split; [|assumption].
    replace (Z.to_nat (snd h - pos)) with (S (Z.to_nat (snd h - (pos + 1)))) by lia.
    exact Hnth.
Qed.

Lemma distances_from_nth (vs : list vector) (pos : Z) (n : nat) (v : vector) :
  nth_error vs n = Some v ->
  In (fvec_L2sqr q v, pos + Z.of_nat n) (distances_from q pos vs).
Proof.
  revert pos n. induction vs as [|v0 vs IH]; intros pos [|n]; simpl; try discriminate.
  - intros [= ->]. left. f_equal. lia.
  - intros Hnth. right.
    replace (pos + Z.pos (Pos.of_succ_nat n)) with (pos + 1 + Z.of_nat n) by lia.
    now apply IH.
Qed.

Lemma distances_from_ascending (vs : list vector) (pos : Z) :
  StronglySorted (fun h1 h2 : hit => snd h1 < snd h2) (distances_from q pos vs).
Proof.
  revert pos. induction vs as [|v vs IH]; intros pos; simpl; constructor.
  - apply IH.
  - apply Forall_forall. intros h Hin. apply distances_from_In in Hin. simpl. lia.
Qed.


End IndexSearch.

Lemma insert_hit_perm (h : hit) (l : list hit) : Permutation (h :: l) (insert_hit h l).
Proof.
  induction l as [|h' l IH]; simpl; [reflexivity|].
  destruct (Qle_bool (fst h) (fst h')); [reflexivity|].
  rewrite perm_swap. now constructor.
Qed.

Lemma sort_hits_perm (l : list hit) : Permutation l (sort_hits l).
Proof.
  induction l as [|h l IH]; simpl; [constructor|].
  rewrite <- insert_hit_perm. now constructor.
Qed.

Lemma hit_before_le (a b : hit) : hit_before a b -> (fst a <= fst b)%Q.
Proof.
  intros [Hlt|[Heq _]]; [now apply Qlt_le_weak|]. rewrite Heq. apply Qle_refl.
Qed.

Lemma le_lt_hit_before (a b : hit) :
  (fst a <= fst b)%Q -> snd a < snd b -> hit_before a b.
Proof.
  intros Hle Hpos. apply Qle_lteq in Hle. destruct Hle as [Hlt|Heq].
  - now left.
  - right. now split.
Qed.

Lemma insert_hit_sorted (h : hit) (l : list hit) :
  StronglySorted hit_before l ->
  Forall (fun h' => snd h < snd h') l ->
  StronglySorted hit_before (insert_hit h l).
Proof.
  induction l as [|h' l IH]; simpl; intros Hs Hpos.
  - repeat constructor.
  - inversion Hs as [|? ? Hs' Hall]; subst. inversion Hpos as [|? ? Hp Hpos']; subst.
    destruct (Qle_bool (fst h) (fst h')) eqn:Hle.
    + apply Qle_bool_iff in Hle. constructor; [assumption|].
      constructor; [now apply le_lt_hit_before|].
      rewrite Forall_forall in *. intros x Hx. apply le_lt_hit_before; [|auto].
      apply Qle_trans with (fst h'); [assumption|]. apply hit_before_le. auto.
    + assert (Hlt : (fst h' < fst h)%Q).
      { apply Qnot_le_lt. intros Hc. apply Qle_bool_iff in Hc. congruence. }
      constructor; [now apply IH|].
      rewrite Forall_forall in *. intros x Hx.
      apply (Permutation_in _ (Permutation_sym (insert_hit_perm h l))) in Hx.
      destruct Hx as [<-|Hx]; [now left|auto].
Qed.

Lemma sort_hits_sorted (l : list hit) :
  StronglySorted (fun h1 h2 : hit => snd h1 < snd h2) l ->
  StronglySorted hit_before (sort_hits l).
Proof.
  induction l as [|h l IH]; simpl; intros Hs; [constructor|].
  inversion Hs as [|? ? Hs' Hall]; subst.
  apply insert_hit_sorted; [now apply IH|].
  rewrite Forall_forall in *. intros x Hx. apply Hall.
  now apply (Permutation_in _ (Permutation_sym (sort_hits_perm l))).
Qed.

Lemma StronglySorted_app_inv {A} (R : A -> A -> Prop) (l1 l2 : list A) :
  StronglySorted R (l1 ++ l2) ->
  StronglySorted R l1 /\ forall x y, In x l1 -> In y l2 -> R x y.
Proof.
  induction l1 as [|a l1 IH]; simpl; intros Hs.
  - split; [constructor|]. intros x y [].
  - inversion Hs as [|? ? Hs' Hall]; subst. destruct (IH Hs') as [Hs1 Hcross].
    rewrite Forall_forall in Hall. split.
    + constructor; [assumption|]. apply Forall_forall. intros x Hx. apply Hall.
      apply in_or_app. now left.
    + intros x y [<-|Hx] Hy; [|now apply Hcross]. apply Hall. apply in_or_app. now right.
Qed.

Lemma found_hits_In (ix : IndexFlatL2) (q : vector) (k : nat) (h : hit) :
  In h (found_hits ix q k) ->
  0 <= snd h < ntotal ix /\
  exists v, nth_error (xb ix) (Z.to_nat (snd h)) = Some v /\ fst h = fvec_L2sqr q v.
Proof.
  unfold found_hits. intros Hin.
  assert (Hin' : In h (sort_hits (distances_from q 0 (xb ix)))).
  { rewrite <- (firstn_skipn k). apply in_or_app. now left. }
  apply (Permutation_in _ (Permutation_sym (sort_hits_perm _))) in Hin'.
  apply distances_from_In in Hin'. rewrite Z.sub_0_r in Hin'. exact Hin'.
Qed.

Lemma valid_hits_app (l1 l2 : list hit) :
  valid_hits (l1 ++ l2) = valid_hits l1 ++ valid_hits l2.
Proof. apply filter_app. Qed.

Lemma valid_hits_padding (n : nat) : valid_hits (repeat padding_slot n) = [].
Proof. induction n as [|n IH]; simpl; [reflexivity|assumption]. Qed.

Lemma valid_hits_found (ix : IndexFlatL2) (q : vector) (k n : nat) :
  valid_hits (found_hits ix q k ++ repeat padding_slot n) = found_hits ix q k.
Proof.
  rewrite valid_hits_app, valid_hits_padding, app_nil_r.
  apply forallb_filter_id. apply forallb_forall. intros h Hin.
  apply found_hits_In in Hin. apply Z.leb_le. tauto.
Qed.






Lemma float32_exact_w_ab (q : Q) :
  int_component 1 q -> float32_exact 1 1 ([q] :: xb (index (store w_ab))).
Proof.
  intros Hq. split; [vm_compute; discriminate|].
  repeat constructor; try assumption.
  - exists 0. split; [reflexivity|lia].
  - exists 1. split; [reflexivity|lia].
Defined.


(** ** Self match *)



Lemma truthy_nonempty (s : string) : s <> "" -> truthy s = true.
Proof. destruct s; [congruence|reflexivity]. Qed.







(** * Further properties of the store *)

(** ** Deleting *)

(** X1: deleting a [document_id] that is not recorded returns false and changes
    neither the store object nor the files. *)
Theorem delete_unknown_unchanged (doc : string) (w : System) :
  ~ In doc (keys (metadata (store w))) ->
  delete_document doc w = (false, w).
Proof.
  intros Hnin. unfold delete_document.
  destruct (dict_contains (metadata (store w)) doc) eqn:Hc; [|reflexivity].
  apply dict_contains_In in Hc. contradiction.
Qed.

Lemma delete_unknown_unchanged_witness :
  delete_document "nobody" w_ab = (false, w_ab).
Proof.
  apply (delete_unknown_unchanged "nobody" w_ab).
  simpl. intros [H|[H|[]]]; discriminate H.
Defined.

Lemma dict_contains_del (m : pydict) (k : string) :
  dict_contains (dict_del m k) k = false.
Proof.
  destruct (dict_contains (dict_del m k) k) eqn:Hc; [|reflexivity].
  apply dict_contains_In, keys_dict_del in Hc. tauto.
Qed.

(** X2: deleting the same [document_id] a second time returns false and changes
    nothing more. *)
Theorem delete_twice (doc : string) (w : System) :
  delete_document doc (snd (delete_document doc w))
    = (false, snd (delete_document doc w)).
Proof.
  unfold delete_document at 2 3.
  destruct (dict_contains (metadata (store w)) doc) eqn:Hc; simpl.
  - unfold delete_document. simpl. now rewrite dict_contains_del.
  - unfold delete_document. now rewrite Hc.
Qed.

Lemma dict_get_del_same (m : pydict) (k : string) : dict_get (dict_del m k) k = None.
Proof.
  unfold dict_del. induction m as [|[k0 v0] m IH]; simpl; [reflexivity|].
  destruct (String.eqb_spec k0 k) as [->|Hne]; simpl; [assumption|].
  destruct (String.eqb_spec k0 k); [contradiction|assumption].
Qed.

Lemma dict_get_del_other (m : pydict) (k k' : string) :
  k' <> k -> dict_get (dict_del m k) k' = dict_get m k'.
Proof.
  intros Hne. unfold dict_del. induction m as [|[k0 v0] m IH]; simpl; [reflexivity|].
  destruct (String.eqb_spec k0 k) as [->|Hne0]; simpl.
  - destruct (String.eqb_spec k k'); [congruence|assumption].
  - now rewrite IH.
Qed.

Lemma dict_get_set_other (m : pydict) (k k' : string) (v : DocEntry) :
  k' <> k -> dict_get (dict_set m k v) k' = dict_get m k'.
Proof.
  intros Hne. induction m as [|[k0 v0] m IH]; simpl.
  - destruct (String.eqb_spec k k'); [congruence|reflexivity].
  - destruct (String.eqb_spec k0 k) as [->|Hne0]; simpl.
    + destruct (String.eqb_spec k k'); [congruence|reflexivity].
    + now rewrite IH.
Qed.

(** X3: after [delete_document doc] the record of [doc] is gone, whatever the
    call returned, and the record of every other [document_id] is as before;
    the vectors of the index are untouched. *)
Theorem delete_removes_only_that_record (doc doc' : string) (w : System) :
  doc' <> doc ->
  let w' := snd (delete_document doc w) in
  dict_get (metadata (store w')) doc = None /\
  dict_get (metadata (store w')) doc' = dict_get (metadata (store w)) doc' /\
  index (store w') = index (store w).
Proof.
  intros Hne. cbv zeta.
  destruct (delete_document doc w) as [[|] w'] eqn:Hdel; simpl.
  - apply delete_document_true in Hdel. destruct Hdel as [_ ->]. simpl.
    split; [apply dict_get_del_same|]. split; [now apply dict_get_del_other|reflexivity].
  - apply delete_document_false in Hdel. destruct Hdel as [Hnin ->].
    split; [|split; reflexivity].
    destruct (dict_get (metadata (store w)) doc) as [v|] eqn:Hget; [|reflexivity].
    exfalso. apply Hnin. apply dict_get_In in Hget.
    unfold keys. apply in_map_iff. now exists (doc, v).
Qed.

Lemma delete_removes_only_that_record_witness :
  let w' := snd (delete_document "a" w_ab) in
  dict_get (metadata (store w')) "a" = None /\
  dict_get (metadata (store w')) "b" = dict_get (metadata (store w_ab)) "b" /\
  index (store w') = index (store w_ab).
Proof.
  apply (delete_removes_only_that_record "a" "b" w_ab). discriminate.
Defined.

(** ** Adding *)

(** X5: a successful [add_document] returns the count as it was before the call,
    raises the count by one, records that position (and the metadata given)
    under the [document_id], and the index holds the embedding at that
    position. *)
Theorem add_then_lookup (doc : string) (e : vector) (md : option metadata_t)
    (w w' : System) (idx : Z) :
  add_document doc e md w = (Ok idx, w') ->
  idx = get_document_count (store w) /\
  get_document_count (store w') = idx + 1 /\
  dict_get (metadata (store w')) doc = Some (mkEntry idx (or_empty md)) /\
  nth_error (xb (index (store w'))) (Z.to_nat idx) = Some e.
Proof.
  intros Hadd. apply add_document_ok in Hadd. simpl in Hadd.
  destruct Hadd as [_ [_ [-> ->]]]. unfold get_document_count, ntotal; simpl.
  split; [reflexivity|]. split; [rewrite length_app; simpl; lia|].
  split; [apply dict_get_set_same|].
  rewrite Nat2Z.id, nth_error_app2, Nat.sub_diag by lia. reflexivity.
Qed.

Lemma add_then_lookup_witness :
  1 = get_document_count (store w_a) /\
  get_document_count (store w_ab) = 1 + 1 /\
  dict_get (metadata (store w_ab)) "b" = Some (mkEntry 1 (or_empty None)) /\
  nth_error (xb (index (store w_ab))) (Z.to_nat 1) = Some [1%Q].
Proof.
  apply (add_then_lookup "b" [1%Q] None w_a w_ab 1). reflexivity.
Defined.

(** X6: [add_document doc], successful or not, leaves the record of every other
    [document_id] and every vector already stored as they were. *)
Theorem add_keeps_other_records (doc doc' : string) (e : vector)
    (md : option metadata_t) (w : System) :
  doc' <> doc ->
  let w' := snd (add_document doc e md w) in
  dict_get (metadata (store w')) doc' = dict_get (metadata (store w)) doc' /\
  forall n v, nth_error (xb (index (store w))) n = Some v ->
              nth_error (xb (index (store w'))) n = Some v.
Proof.
  intros Hne. cbv zeta.
  destruct (add_document_cases doc e md w) as [-> | ->]; [split; auto|]. simpl.
  split; [now apply dict_get_set_other|].
  intros n v Hnth. rewrite nth_error_app1; [assumption|].
  apply nth_error_Some. congruence.
Qed.

Lemma add_keeps_other_records_witness :
  let w' := snd (add_document "b" [1%Q] None w_a) in
  dict_get (metadata (store w')) "a" = dict_get (metadata (store w_a)) "a" /\
  forall n v, nth_error (xb (index (store w_a))) n = Some v ->
              nth_error (xb (index (store w'))) n = Some v.
Proof.
  apply (add_keeps_other_records "b" "a" [1%Q] None w_a). discriminate.
Defined.

(** ** Runs *)

Lemma exec_appends (o : op) (w : System) :
  exists added,
    xb (index (store (exec o w))) = xb (index (store w)) ++ added /\
    d (index (store (exec o w))) = d (index (store w)) /\
    dimension (store (exec o w)) = dimension (store w).
Proof.
  destruct o as [doc e md|doc]; simpl.
  - destruct (add_document_cases doc e md w) as [-> | ->].
    + exists []. now rewrite app_nil_r.
    + exists [e]. simpl. auto.
  - destruct (delete_document_cases doc w) as [-> | ->].
    + exists []. now rewrite app_nil_r.
    + exists []. simpl. now rewrite app_nil_r.
Qed.

(** X7: the index is append-only: after any sequence of adds and deletes the
    vectors stored before are still there, at the same positions, followed by
    the added ones; the two dimensions never change and the count never goes
    down. *)
Theorem index_append_only (ops : list op) (w : System) :
  exists added,
    xb (index (store (run ops w))) = xb (index (store w)) ++ added /\
    d (index (store (run ops w))) = d (index (store w)) /\
    dimension (store (run ops w)) = dimension (store w) /\
    get_document_count (store w) <= get_document_count (store (run ops w)).
Proof.
  revert w. induction ops as [|o ops IH]; intros w; simpl.
  - exists []. rewrite app_nil_r. repeat split. lia.
  - destruct (IH (exec o w)) as [added2 [Hxb [Hd [Hdim Hcount]]]].
    destruct (exec_appends o w) as [added1 [Hxb1 [Hd1 Hdim1]]].
    exists (added1 ++ added2). unfold run in *. simpl.
    rewrite Hxb, Hxb1, Hd, Hd1, Hdim, Hdim1, app_assoc. repeat split.
    unfold get_document_count, ntotal in *. rewrite Hxb1 in Hcount.
    rewrite length_app in Hcount. lia.
Qed.

(** ** Reachable states *)

Lemma positions_unique_set (ix : IndexFlatL2) (m : pydict) (doc : string)
    (md : metadata_t) :
  positions_in_range ix m -> positions_unique m ->
  positions_unique (dict_set m doc (mkEntry (ntotal ix) md)).
Proof.
  unfold positions_in_range, positions_unique.
  induction m as [|[k0 v0] m IH]; simpl; intros Hr Hu.
  - repeat constructor. intros [].
  - inversion Hr as [|? ? Hr0 Hr']; subst. inversion Hu as [|? ? Hnin Hu']; subst.
    simpl in Hr0. rewrite Forall_forall in Hr'.
    destruct (String.eqb_spec k0 doc) as [->|Hne]; simpl.
    + constructor; [|assumption]. unfold entry_position at 1; simpl.
      intros Hin. apply in_map_iff in Hin. destruct Hin as [kv [Heq Hin]].
      specialize (Hr' kv Hin). unfold entry_position in Heq. lia.
    + constructor; [|apply IH; [now apply Forall_forall|assumption]].
      intros Hin. apply in_map_iff in Hin. destruct Hin as [kv [Heq Hin]].
      apply dict_set_In in Hin. destruct Hin as [Hin| ->].
      * apply Hnin. apply in_map_iff. now exists kv.
      * unfold entry_position in Heq; simpl in Heq. lia.
Qed.

Lemma positions_unique_del (m : pydict) (doc : string) :
  positions_unique m -> positions_unique (dict_del m doc).
Proof.
  unfold positions_unique, dict_del.
  induction m as [|[k0 v0] m IH]; simpl; intros Hu; [constructor|].
  inversion Hu as [|? ? Hnin Hu']; subst.
  destruct (negb (String.eqb k0 doc)); simpl; [|now apply IH].
  constructor; [|now apply IH].
  intros Hin. apply Hnin. apply in_map_iff in Hin. destruct Hin as [kv [Heq Hin]].
  apply filter_In in Hin. apply in_map_iff. exists kv. tauto.
Qed.

Lemma reachable_positions_ok (w : System) :
  reachable w -> holds_everywhere positions_ok w.
Proof.
  apply reachable_invariant.
  - intros dim. split; constructor.
  - intros ix m doc e md [Hr Hu]. split.
    + now apply positions_in_range_set.
    + now apply positions_unique_set.
  - intros ix m doc [Hr Hu]. split.
    + now apply positions_in_range_del.
    + now apply positions_unique_del.
Qed.

Lemma NoDup_map_eq {A B} (f : A -> B) (l : list A) (x y : A) :
  NoDup (map f l) -> In x l -> In y l -> f x = f y -> x = y.
Proof.
  induction l as [|a l IH]; simpl; intros Hnd Hx Hy Hf; [contradiction|].
  inversion Hnd as [|? ? Hnin Hnd']; subst.
  destruct Hx as [->|Hx], Hy as [->|Hy]; auto.
  - exfalso. apply Hnin. rewrite Hf. now apply in_map.
  - exfalso. apply Hnin. rewrite <- Hf. now apply in_map.
Qed.

(** X8: in every reachable state two different documents never share a position
    of the index. *)
Theorem reachable_positions_distinct (w : System) (doc1 doc2 : string)
    (data1 data2 : DocEntry) :
  reachable w ->
  dict_get (metadata (store w)) doc1 = Some data1 ->
  dict_get (metadata (store w)) doc2 = Some data2 ->
  faiss_id data1 = faiss_id data2 ->
  doc1 = doc2.
Proof.
  intros Hr H1 H2 Heq. apply reachable_positions_ok in Hr.
  destruct Hr as [[_ Hu] _]. apply dict_get_In in H1, H2.
  assert (Hkv : (doc1, data1) = (doc2, data2)).
  { apply (NoDup_map_eq entry_position (metadata (store w))); assumption. }
  congruence.
Qed.

Lemma reachable_positions_distinct_witness : "b" = "b".
Proof.
  apply (reachable_positions_distinct w_ab "b" "b" (mkEntry 1 []) (mkEntry 1 [])).
  - unfold w_ab, w_a. do 2 apply reach_exec. apply reach_fresh. reflexivity.
  - reflexivity.
  - reflexivity.
  - reflexivity.
Defined.

(** X9: in every reachable state the number of live documents is at most the
    count reported by [get_document_count]. *)
Theorem live_count_le_count (w : System) :
  reachable w -> live_count (store w) <= get_document_count (store w).
Proof.
  intros Hr. apply reachable_positions_ok in Hr. destruct Hr as [[Hrange Hu] _].
  unfold live_count, get_document_count, ntotal, positions_in_range,
    positions_unique in *.
  set (m := metadata (store w)) in *. set (vs := xb (index (store w))) in *.
  rewrite Forall_forall in Hrange.
  assert (Hnd : NoDup (map Z.to_nat (map entry_position m))).
  { apply Finite.Injective_map_NoDup_in; [|assumption].
    intros x y Hx Hy Hxy. apply in_map_iff in Hx, Hy.
    destruct Hx as [kx [<- Hx]], Hy as [ky [<- Hy]].
    pose proof (Hrange kx Hx). pose proof (Hrange ky Hy).
    unfold entry_position in *. lia. }
  assert (Hincl : incl (map Z.to_nat (map entry_position m)) (seq 0 (length vs))).
  { intros n Hn. apply in_map_iff in Hn. destruct Hn as [p [<- Hp]].
    apply in_map_iff in Hp. destruct Hp as [kv [<- Hkv]].
    pose proof (Hrange kv Hkv) as Hkv'. cbv beta in Hkv'.
    unfold entry_position. apply in_seq. unfold ntotal in Hkv'. fold vs in Hkv'. lia. }
  pose proof (NoDup_incl_length Hnd Hincl) as Hlen.
  rewrite !length_map, length_seq in Hlen. unfold ntotal. fold vs. lia.
Qed.

Lemma live_count_le_count_witness :
  live_count (store w_b) <= get_document_count (store w_b).
Proof.
  apply (live_count_le_count w_b).
  unfold w_b, w_ab, w_a. do 3 apply reach_exec. apply reach_fresh. reflexivity.
Defined.

(** X10: a mutation that returns has persisted: right after an
    [add_document] that returned a position, or a [delete_document] that
    returned true, a new store constructed on the directory with the same
    dimension is equal to the running one. *)
Theorem mutation_persists (w w' : System) :
  (exists doc e md idx, add_document doc e md w = (Ok idx, w')) \/
  (exists doc, delete_document doc w = (true, w')) ->
  init (dimension (store w')) (disk w') = Ok (store w').
Proof.
  intros [[doc [e [md [idx Hadd]]]]|[doc Hdel]].
  - apply add_document_ok in Hadd. simpl in Hadd. destruct Hadd as [_ [_ [_ ->]]].
    reflexivity.
  - apply delete_document_true in Hdel. destruct Hdel as [_ ->]. reflexivity.
Qed.

Lemma mutation_persists_witness :
  init (dimension (store w_ab)) (disk w_ab) = Ok (store w_ab) /\
  init (dimension (store w_b)) (disk w_b) = Ok (store w_b).
Proof.
  split.
  - apply (mutation_persists w_a w_ab). left.
    exists "b", [1%Q], None, 1. reflexivity.
  - apply (mutation_persists w_ab w_b). right. exists "a". reflexivity.
Defined.

(** ** Search results *)

Lemma prepare_results_length (m : pydict) (hits : list hit) (i : nat) :
  (length (prepare_results m i hits) <= length hits)%nat.
Proof.
  revert i. induction hits as [|[dist idx] hits IH]; intros i; simpl; [lia|].
  specialize (IH (S i)). loop_turn m idx; simpl; lia.
Qed.

(** X11: a search never returns more than [limit] results. *)
Theorem search_at_most_limit (q : vector) (limit : nat) (s : VectorStore)
    (rs : list SearchResult) :
  search q limit s = Ok rs -> (length rs <= limit)%nat.
Proof.
  intros Hs. apply search_ok in Hs. destruct Hs as [hits [Hhits ->]].
  apply IndexFlatL2_search_length in Hhits. rewrite <- Hhits.
  apply prepare_results_length.
Qed.

Lemma search_at_most_limit_witness :
  exists rs, search [0%Q] 1 (store w_ab) = Ok rs /\ (length rs <= 1)%nat.
Proof.
  eexists. split; [vm_compute; reflexivity|].
  apply (search_at_most_limit [0%Q] 1 (store w_ab)). vm_compute. reflexivity.
Defined.

Lemma prepare_results_source (m : pydict) (hits : list hit) (i : nat)
    (r : SearchResult) :
  In r (prepare_results m i hits) ->
  exists dist idx data,
    In (dist, idx) hits /\
    resolve m idx = Some (document_id r, data) /\
    similarity r = to_similarity dist.
Proof.
  intros Hin.
  pose proof (prepare_results_origin m hits i) as Horigin.
  rewrite Forall_forall in Horigin. apply Horigin in Hin.
  destruct Hin as [_ [dist [idx [data [Hnth [Hres [Hsim _]]]]]]].
  exists dist, idx, data. split; [|now split]. now apply nth_error_In in Hnth.
Qed.

Lemma fvec_L2sqr_nonneg (x y : vector) : (0 <= fvec_L2sqr x y)%Q.
Proof.
  revert y. induction x as [|a x IH]; intros [|b y]; simpl; try apply Qle_refl.
  specialize (IH y).
  assert (Hsq : (0 <= (a - b) * (a - b))%Q).
  { destruct (Qlt_le_dec (a - b) 0) as [Hneg|Hpos].
    - setoid_replace ((a - b) * (a - b))%Q with ((- (a - b)) * (- (a - b)))%Q by ring.
      apply Qmult_le_0_compat; lra.
    - now apply Qmult_le_0_compat. }
  lra.
Qed.

Lemma FLT_MAX_large : (100 <= FLT_MAX)%Q.
Proof. unfold Qle. vm_compute. discriminate. Qed.

Lemma search_hits_nonneg (ix : IndexFlatL2) (q : vector) (k : nat) (hits : list hit) :
  IndexFlatL2_search ix q k = Ok hits -> Forall (fun h => (0 <= fst h)%Q) hits.
Proof.
  intros Hhits. apply IndexFlatL2_search_ok in Hhits. destruct Hhits as [_ [_ ->]].
  apply Forall_app. split.
  - apply Forall_forall. intros h Hin. apply found_hits_In in Hin.
    destruct Hin as [_ [v [_ ->]]]. apply fvec_L2sqr_nonneg.
  - apply Forall_forall. intros h Hin. apply repeat_spec in Hin. subst h. simpl.
    pose proof FLT_MAX_large. lra.
Qed.

Lemma div100_le (a b : Q) : (a <= b)%Q -> (a / 100 <= b / 100)%Q.
Proof.
  intros Hle. unfold Qdiv. apply Qmult_le_compat_r; [assumption|]. discriminate.
Qed.

Lemma to_similarity_bounds (dist : Q) :
  (0 <= dist)%Q -> (0 <= to_similarity dist <= 1)%Q.
Proof.
  intros Hpos. unfold to_similarity.
  pose proof (Q.le_min_r (dist / 100) 1) as Hr.
  assert (H0 : (0 <= dist / 100)%Q).
  { pose proof (div100_le 0 dist Hpos) as H0.
    setoid_replace (0 / 100)%Q with 0%Q in H0 by reflexivity. exact H0. }
  assert (Hl : (0 <= Qmin (dist / 100) 1)%Q) by (apply Q.min_glb; lra).
  split; lra.
Qed.

Lemma to_similarity_antitone (d1 d2 : Q) :
  (d1 <= d2)%Q -> (to_similarity d2 <= to_similarity d1)%Q.
Proof.
  intros Hle. unfold to_similarity.
  pose proof (Q.min_le_compat_r _ _ 1%Q (div100_le _ _ Hle)). lra.
Qed.

(** X12: every similarity returned by a search lies between 0 and 1. *)
Theorem search_similarity_bounds (q : vector) (limit : nat) (s : VectorStore)
    (rs : list SearchResult) :
  search q limit s = Ok rs ->
  Forall (fun r => (0 <= similarity r <= 1)%Q) rs.
Proof.
  intros Hs. apply search_ok in Hs. destruct Hs as [hits [Hhits ->]].
  apply search_hits_nonneg in Hhits. rewrite Forall_forall in Hhits.
  apply Forall_forall. intros r Hr. apply prepare_results_source in Hr.
  destruct Hr as [dist [idx [data [Hin [_ ->]]]]].
  apply to_similarity_bounds. apply (Hhits _ Hin).
Qed.

Lemma search_similarity_bounds_witness :
  exists rs,
    search [3%Q] 2 (store w_ab) = Ok rs /\
    Forall (fun r => (0 <= similarity r <= 1)%Q) rs.
Proof.
  eexists. split; [vm_compute; reflexivity|].
  apply (search_similarity_bounds [3%Q] 2 (store w_ab)). vm_compute. reflexivity.
Defined.

Lemma StronglySorted_weaken {A} (R R' : A -> A -> Prop) (l : list A) :
  (forall x y, R x y -> R' x y) -> StronglySorted R l -> StronglySorted R' l.
Proof.
  intros Himp Hs. induction Hs as [|a l Hs IH Hall]; constructor; [assumption|].
  eapply Forall_impl; [|exact Hall]. intros y. apply Himp.
Qed.

Lemma StronglySorted_app_intro {A} (R : A -> A -> Prop) (l1 l2 : list A) :
  StronglySorted R l1 -> StronglySorted R l2 ->
  (forall x y, In x l1 -> In y l2 -> R x y) ->
  StronglySorted R (l1 ++ l2).
Proof.
  intros H1 H2 Hcross. induction H1 as [|a l1 H1 IH Hall]; simpl; [assumption|].
  constructor.
  - apply IH. intros x y Hx Hy. apply Hcross; [now right|assumption].
  - apply Forall_app. split; [assumption|].
    apply Forall_forall. intros y Hy. apply Hcross; [now left|assumption].
Qed.

Lemma StronglySorted_repeat {A} (R : A -> A -> Prop) (x : A) (n : nat) :
  R x x -> StronglySorted R (repeat x n).
Proof.
  intros Hrefl. induction n as [|n IH]; simpl; constructor; [assumption|].
  apply Forall_forall. intros y Hy. apply repeat_spec in Hy. now subst y.
Qed.

Lemma found_hits_sorted (ix : IndexFlatL2) (q : vector) (k : nat) :
  StronglySorted hit_before (found_hits ix q k).
Proof.
  unfold found_hits.
  set (sorted := sort_hits (distances_from q 0 (xb ix))).
  assert (Hsorted : StronglySorted hit_before (firstn k sorted ++ skipn k sorted)).
  { rewrite firstn_skipn. apply sort_hits_sorted, distances_from_ascending. }
  now apply StronglySorted_app_inv in Hsorted.
Qed.

Lemma to_similarity_padding : (to_similarity FLT_MAX == 0)%Q.
Proof.
  unfold to_similarity. rewrite Q.min_r; [reflexivity|].
  pose proof (div100_le _ _ FLT_MAX_large) as H.
  setoid_replace (100 / 100)%Q with 1%Q in H by reflexivity. exact H.
Qed.

(** The hits of the index, padding included, are in order of non-increasing
    similarity. *)
Lemma search_hits_by_similarity (ix : IndexFlatL2) (q : vector) (k : nat)
    (hits : list hit) :
  IndexFlatL2_search ix q k = Ok hits ->
  StronglySorted
    (fun h1 h2 : hit => (to_similarity (fst h2) <= to_similarity (fst h1))%Q) hits.
Proof.
  intros Hhits. pose proof (search_hits_nonneg _ _ _ _ Hhits) as Hpos.
  rewrite Forall_forall in Hpos.
  apply IndexFlatL2_search_ok in Hhits. destruct Hhits as [_ [_ ->]].
  apply StronglySorted_app_intro.
  - apply (StronglySorted_weaken hit_before); [|apply found_hits_sorted].
    intros x y Hxy. apply to_similarity_antitone. now apply hit_before_le.
  - apply StronglySorted_repeat. apply Qle_refl.
  - intros x y Hx Hy. apply repeat_spec in Hy. subst y. simpl.
    rewrite to_similarity_padding. apply to_similarity_bounds.
    apply Hpos. apply in_or_app. now left.
Qed.

Lemma prepare_results_by_similarity (m : pydict) (hits : list hit) (i : nat) :
  StronglySorted
    (fun h1 h2 : hit => (to_similarity (fst h2) <= to_similarity (fst h1))%Q) hits ->
  StronglySorted (fun r1 r2 => (similarity r2 <= similarity r1)%Q)
                 (prepare_results m i hits).
Proof.
  revert i. induction hits as [|[dist idx] hits IH]; intros i Hs; simpl.
  - constructor.
  - inversion Hs as [|? ? Hs' Hall]; subst. rewrite Forall_forall in Hall.
    loop_turn m idx; auto. constructor; [now apply IH|].
    apply Forall_forall. intros r Hr. apply prepare_results_source in Hr.
    destruct Hr as [dist' [idx' [data' [Hin [_ ->]]]]]. simpl.
    apply (Hall _ Hin).
Qed.

(** X13: the results of a search are in order of non-increasing similarity: the
    best match comes first. *)
Theorem search_similarity_nonincreasing (q : vector) (limit : nat)
    (s : VectorStore) (rs : list SearchResult) :
  search q limit s = Ok rs ->
  StronglySorted (fun r1 r2 => (similarity r2 <= similarity r1)%Q) rs.
Proof.
  intros Hs. apply search_ok in Hs. destruct Hs as [hits [Hhits ->]].
  apply prepare_results_by_similarity.
  exact (search_hits_by_similarity (index s) q limit hits Hhits).
Qed.

Lemma search_similarity_nonincreasing_witness :
  exists rs,
    search [3%Q] 5 (store w_ab) = Ok rs /\
    StronglySorted (fun r1 r2 => (similarity r2 <= similarity r1)%Q) rs.
Proof.
  eexists. split; [vm_compute; reflexivity|].
  apply (search_similarity_nonincreasing [3%Q] 5 (store w_ab)). vm_compute. reflexivity.
Defined.

Lemma ascending_labels_NoDup (l : list hit) :
  StronglySorted (fun h1 h2 : hit => snd h1 < snd h2) l -> NoDup (map snd l).
Proof.
  intros Hs. induction Hs as [|a l Hs IH Hall]; simpl; constructor; [|assumption].
  intros Hin. apply in_map_iff in Hin. destruct Hin as [h [Heq Hin]].
  rewrite Forall_forall in Hall. specialize (Hall h Hin). lia.
Qed.

Lemma found_hits_labels_NoDup (ix : IndexFlatL2) (q : vector) (k : nat) :
  NoDup (map snd (found_hits ix q k)).
Proof.
  unfold found_hits.
  set (sorted := sort_hits (distances_from q 0 (xb ix))).
  assert (Hnd : NoDup (map snd (firstn k sorted ++ skipn k sorted))).
  { rewrite firstn_skipn.
    apply (Permutation_NoDup (Permutation_map snd (sort_hits_perm _))).
    apply ascending_labels_NoDup, distances_from_ascending. }
  rewrite map_app in Hnd. now apply NoDup_app_remove_r in Hnd.
Qed.

Lemma prepare_results_app (m : pydict) (l1 l2 : list hit) (i : nat) :
  prepare_results m i (l1 ++ l2) =
  prepare_results m i l1 ++ prepare_results m (i + length l1) l2.
Proof.
  revert i. induction l1 as [|[dist idx] l1 IH]; intros i; simpl.
  - now rewrite Nat.add_0_r.
  - replace (i + S (length l1))%nat with (S i + length l1)%nat by lia.
    loop_turn m idx; simpl; now rewrite IH.
Qed.

Lemma resolve_padding (ix : IndexFlatL2) (m : pydict) :
  positions_in_range ix m -> resolve m (-1) = None.
Proof.
  unfold positions_in_range, resolve. induction m as [|[k0 v0] m IH]; simpl; intros Hr.
  - reflexivity.
  - inversion Hr as [|? ? H0 Hr']; subst. simpl in H0.
    destruct (Z.eqb_spec (faiss_id v0) (-1)); [lia|]. now apply IH.
Qed.

Lemma prepare_results_padding (ix : IndexFlatL2) (m : pydict) (i n : nat) :
  positions_in_range ix m -> prepare_results m i (repeat padding_slot n) = [].
Proof.
  intros Hr. revert i. induction n as [|n IH]; intros i; simpl; [reflexivity|].
  rewrite (resolve_padding ix m Hr). apply IH.
Qed.

Lemma prepare_results_NoDup (m : pydict) (hits : list hit) (i : nat) :
  dict_wf m -> NoDup (map snd hits) ->
  NoDup (map document_id (prepare_results m i hits)).
Proof.
  intros Hwf. revert i. induction hits as [|[dist idx] hits IH]; intros i Hnd; simpl.
  - constructor.
  - inversion Hnd as [|? ? Hnin Hnd']; subst.
    loop_turn m idx; auto. simpl. constructor; [|now apply IH].
    intros Hin. apply in_map_iff in Hin. destruct Hin as [r [Hid Hr]].
    apply prepare_results_source in Hr.
    destruct Hr as [dist' [idx' [data' [Hin' [Hres' _]]]]]. rewrite Hid in Hres'.
    apply resolve_In in Hres, Hres'.
    destruct Hres as [Hm <-], Hres' as [Hm' <-].
    assert (Heq : (doc, data) = (doc, data')).
    { apply (NoDup_map_eq fst m); auto. }
    apply Hnin. apply in_map_iff. exists (dist', faiss_id data'). simpl.
    split; [congruence|assumption].
Qed.

(** X14: in every reachable state a search returns no document twice. *)
Theorem search_no_duplicates (w : System) (q : vector) (limit : nat)
    (rs : list SearchResult) :
  reachable w ->
  search q limit (store w) = Ok rs ->
  NoDup (map document_id rs).
Proof.
  intros Hr Hs. pose proof (reachable_dict_wf w Hr) as Hwf.
  apply reachable_positions in Hr. destruct Hr as [Hrange _].
  apply search_ok in Hs. destruct Hs as [hits [Hhits ->]].
  apply IndexFlatL2_search_ok in Hhits. destruct Hhits as [_ [_ ->]].
  rewrite prepare_results_app, (prepare_results_padding _ _ _ _ Hrange), app_nil_r.
  apply prepare_results_NoDup; [assumption|apply found_hits_labels_NoDup].
Qed.

Lemma search_no_duplicates_witness :
  exists rs,
    search [0%Q] 4 (store w_ab) = Ok rs /\ NoDup (map document_id rs).
Proof.
  eexists. split; [vm_compute; reflexivity|].
  apply (search_no_duplicates w_ab [0%Q] 4).
  - unfold w_ab, w_a. do 2 apply reach_exec. apply reach_fresh. reflexivity.
  - vm_compute. reflexivity.
Defined.

Lemma prepare_results_complete (m : pydict) (hits : list hit) (i : nat)
    (dist : Q) (idx : Z) (doc : string) (data : DocEntry) :
  In (dist, idx) hits ->
  resolve m idx = Some (doc, data) ->
  truthy doc = true ->
  In doc (map document_id (prepare_results m i hits)).
Proof.
  intros Hin Hres Htr. revert i.
  induction hits as [|[dist0 idx0] hits IH]; intros i; simpl; [contradiction|].
  destruct Hin as [[= -> ->]|Hin].
  - rewrite Hres, Htr. simpl. now left.
  - specialize (IH Hin (S i)).
    destruct (resolve m idx0) as [[doc0 data0]|]; [|assumption].
    destruct (truthy doc0); [|assumption]. simpl. now right.
Qed.

(** X15: in every reachable state, with the query and the stored vectors in
    the range where float32 arithmetic is exact, a search whose limit is at
    least the count returns every live document that has a non-empty
    [document_id]. *)
Theorem search_returns_every_live_document (B : Z) (w : System) (q : vector)
    (limit : nat) (rs : list SearchResult) (doc : string) :
  float32_exact B (d (index (store w))) (q :: xb (index (store w))) ->
  reachable w ->
  search q limit (store w) = Ok rs ->
  get_document_count (store w) <= Z.of_nat limit ->
  In doc (keys (metadata (store w))) ->
  doc <> "" ->
  In doc (map document_id rs).
Proof.
  intros _ Hr Hs Hlimit Hdoc Hne.
  apply reachable_positions_ok in Hr. destruct Hr as [[Hrange Huniq] _].
  apply search_ok in Hs. destruct Hs as [hits [Hhits ->]].
  unfold keys in Hdoc. apply in_map_iff in Hdoc. destruct Hdoc as [[doc0 data] [Hk Hm]].
  simpl in Hk. subst doc0.
  unfold positions_in_range in Hrange. rewrite Forall_forall in Hrange.
  pose proof (Hrange _ Hm) as Hpos. simpl in Hpos. unfold ntotal in Hpos.
  destruct (nth_error (xb (index (store w))) (Z.to_nat (faiss_id data))) as [v|] eqn:Hnth;
    [|apply nth_error_None in Hnth; lia].
  assert (Hres : resolve (metadata (store w)) (faiss_id data) = Some (doc, data)).
  { destruct (resolve (metadata (store w)) (faiss_id data)) as [[doc' data']|] eqn:Hres.
    - apply resolve_In in Hres. destruct Hres as [Hm' Hid]. f_equal.
      apply (NoDup_map_eq entry_position (metadata (store w))); auto.
    - unfold resolve in Hres. apply (find_none _ _ Hres) in Hm. simpl in Hm.
      rewrite Z.eqb_refl in Hm. discriminate. }
  apply (prepare_results_complete _ _ _ (fvec_L2sqr q v) (faiss_id data) doc data);
    [|assumption|now apply truthy_nonempty].
  apply IndexFlatL2_search_ok in Hhits. destruct Hhits as [_ [_ ->]].
  apply in_or_app. left. unfold found_hits. rewrite firstn_all2.
  - apply (Permutation_in _ (sort_hits_perm _)).
    pose proof (distances_from_nth q _ 0 _ _ Hnth) as Hin.
    rewrite Z.add_0_l, Z2Nat.id in Hin by lia. exact Hin.
  - rewrite <- (Permutation_length (sort_hits_perm _)), distances_from_length.
    unfold get_document_count, ntotal in Hlimit. lia.
Qed.

Lemma search_returns_every_live_document_witness :
  exists rs,
    search [0%Q] 2 (store w_b) = Ok rs /\ In "b" (map document_id rs).
Proof.
  eexists. split; [vm_compute; reflexivity|].
  apply (search_returns_every_live_document 1 w_b [0%Q] 2).
  - apply float32_exact_w_ab. exists 0. split; [reflexivity|lia].
  - unfold w_b, w_ab, w_a. do 3 apply reach_exec. apply reach_fresh. reflexivity.
  - vm_compute. reflexivity.
  - vm_compute. discriminate.
  - simpl. left. reflexivity.
  - discriminate.
Defined.

(** * Properties of the document processor *)

(** ** Strings *)

Lemma length_append (a b : string) :
  String.length (a ++ b) = (String.length a + String.length b)%nat.
Proof. induction a as [|c a IH]; simpl; [reflexivity|]. now rewrite IH. Qed.

Lemma substring_0_short (n : nat) (s : string) :
  (String.length s <= n)%nat -> substring 0 n s = s.
Proof.
  revert n. induction s as [|c s IH]; intros [|n]; simpl; intros Hle;
    try reflexivity; try lia.
  f_equal. apply IH. lia.
Qed.

Lemma substring_0_length (n : nat) (s : string) :
  String.length (substring 0 n s) = Nat.min n (String.length s).
Proof.
  revert n. induction s as [|c s IH]; intros [|n]; simpl; try reflexivity.
  now rewrite IH.
Qed.

Lemma first_part_substring (text : string) : first_part text = substring 0 1000 text.
Proof.
  unfold first_part. destruct (Nat.ltb_spec 1000 (String.length text)) as [Hlt|Hle].
  - reflexivity.
  - symmetry. now apply substring_0_short.
Qed.

Lemma lookup_None {A} (table : list (string * A)) (key : string) :
  lookup table key = None <-> ~ In key (map fst table).
Proof.
  induction table as [|[k v] table IH]; simpl.
  - tauto.
  - destruct (String.eqb_spec k key) as [->|Hne].
    + split; [discriminate|]. intros H. exfalso. apply H. now left.
    + rewrite IH. tauto.
Qed.

(** ** Failures *)

(** X20: [process_document] can fail in two ways only: the content type is none of
    the six supported ones (a [ValueError] naming it), or the text extractor
    of that type raised, and then with that very exception.  A failure of the
    summarizer, the NER, the classifier or the sentiment model never makes it
    fail. *)
Theorem process_document_failures (self : DocumentProcessor) (fs : FileSystem)
    (file_path content_type : string) (e : exception) :
  process_document self fs file_path content_type = Raises e ->
  (~ In content_type (map fst supported_types) /\
   e = Exception "ValueError" ("Unsupported file type: " ++ content_type)%string) \/
  (exists extract,
     lookup supported_types content_type = Some extract /\
     extract fs file_path = Raises e).
Proof.
  unfold process_document.
  destruct (lookup supported_types content_type) as [extract|] eqn:Hlook.
  - destruct (extract fs file_path) as [text|e'] eqn:Hext; [discriminate|].
    intros [= ->]. right. now exists extract.
  - intros [= <-]. left. split; [now apply lookup_None|reflexivity].
Qed.

Lemma process_document_failures_witness :
  (~ In "text/html" (map fst supported_types) /\
   Exception "ValueError" "Unsupported file type: text/html"
     = Exception "ValueError" ("Unsupported file type: " ++ "text/html")%string) \/
  (exists extract,
     lookup supported_types "text/html" = Some extract /\
     extract demo_files "notes.txt"
       = Raises (Exception "ValueError" "Unsupported file type: text/html")).
Proof.
  apply (process_document_failures demo_processor demo_files "notes.txt" "text/html").
  reflexivity.
Defined.

(** X21: for a supported content type whose extractor returns a text,
    [process_document] returns a result whatever the four models do; its
    character count is the length of the text, its preview has that length
    when the text has at most 1000 characters and 1003 characters otherwise,
    and starts like the text. *)
Theorem process_document_preview (self : DocumentProcessor) (fs : FileSystem)
    (file_path content_type : string)
    (extract : FileSystem -> string -> outcome string) (text : string) :
  lookup supported_types content_type = Some extract ->
  extract fs file_path = Returns text ->
  exists r,
    process_document self fs file_path content_type = Returns r /\
    character_count r = String.length text /\
    String.length (text_preview r)
      = (if (character_count r <=? 1000)%nat then character_count r else 1003%nat) /\
    substring 0 1000 (text_preview r) = substring 0 1000 text.
Proof.
  intros Hlook Hext. unfold process_document. rewrite Hlook, Hext.
  eexists. split; [reflexivity|]. simpl. split; [reflexivity|].
  destruct (Nat.ltb_spec 1000 (String.length text)) as [Hlt|Hle].
  - destruct (Nat.leb_spec (String.length text) 1000) as [Hc|_]; [lia|].
    assert (Hlen : String.length (substring 0 1000 text) = 1000%nat).
    { rewrite substring_0_length. lia. }
    split.
    + rewrite length_append, Hlen. reflexivity.
    + pose proof (proj1 (prefix_correct (substring 0 1000 text)
                           (substring 0 1000 text ++ "...")%string)) as Hp.
      rewrite Hlen in Hp. apply Hp. clear Hp Hlen.
      generalize (substring 0 1000 text). intros s.
      induction s as [|c s IH]; simpl; [reflexivity|].
      destruct (ascii_dec c c) as [_|Hne]; [exact IH|contradiction].
  - destruct (Nat.leb_spec (String.length text) 1000) as [_|Hc]; [|lia].
    split; reflexivity.
Qed.

Lemma process_document_preview_witness :
  exists r,
    process_document demo_processor demo_files "notes.txt" "text/plain" = Returns r /\
    character_count r = String.length "  Ada  met Byron in London " /\
    String.length (text_preview r)
      = (if (character_count r <=? 1000)%nat then character_count r else 1003%nat) /\
    substring 0 1000 (text_preview r) = substring 0 1000 "  Ada  met Byron in London ".
Proof.
  apply (process_document_preview demo_processor demo_files "notes.txt" "text/plain"
           _process_txt).
  - reflexivity.
  - reflexivity.
Defined.

(** X22: the three image types never read the file: the result is the same for
    every path and every state of the files. *)
Theorem process_document_image_ignores_file (self : DocumentProcessor)
    (fs fs' : FileSystem) (file_path file_path' content_type : string) :
  In content_type ["image/jpeg"; "image/png"; "image/tiff"] ->
  process_document self fs file_path content_type
    = process_document self fs' file_path' content_type /\
  exists r, process_document self fs file_path content_type = Returns r.
Proof.
  intros [<-|[<-|[<-|[]]]]; (split; [reflexivity|eexists; reflexivity]).
Qed.

Lemma process_document_image_ignores_file_witness :
  process_document demo_processor demo_files "a.png" "image/png"
    = process_document demo_processor (mkFiles (fun _ => Returns []) (fun _ => Returns [])
                                         (fun _ => Returns "")) "b.png" "image/png" /\
  exists r, process_document demo_processor demo_files "a.png" "image/png" = Returns r.
Proof.
  apply (process_document_image_ignores_file demo_processor demo_files).
  simpl. right. left. reflexivity.
Defined.

(** ** The models see the first 1000 characters only *)

(** X23: two texts with the same first 1000 characters get the same summary,
    entities, classification and sentiment. *)
Theorem analysis_reads_first_1000 (self : DocumentProcessor) (t1 t2 : string) :
  substring 0 1000 t1 = substring 0 1000 t2 ->
  _generate_summary self t1 = _generate_summary self t2 /\
  _extract_entities self t1 = _extract_entities self t2 /\
  _classify_document self t1 = _classify_document self t2 /\
  _analyze_sentiment self t1 = _analyze_sentiment self t2.
Proof.
  intros Heq.
  unfold _generate_summary, _extract_entities, _classify_document, _analyze_sentiment.
  rewrite !first_part_substring, Heq. repeat split.
Qed.

Lemma analysis_reads_first_1000_witness :
  let t1 := (thousand_a ++ "x")%string in
  let t2 := (thousand_a ++ "yz")%string in
  _generate_summary demo_processor t1 = _generate_summary demo_processor t2 /\
  _extract_entities demo_processor t1 = _extract_entities demo_processor t2 /\
  _classify_document demo_processor t1 = _classify_document demo_processor t2 /\
  _analyze_sentiment demo_processor t1 = _analyze_sentiment demo_processor t2.
Proof.
  apply (analysis_reads_first_1000 demo_processor
           (thousand_a ++ "x")%string (thousand_a ++ "yz")%string).
  vm_compute. reflexivity.
Defined.

(** ** Grouping the entities *)

Lemma has_entity_cons (k : string) (texts : list string)
    (rest : list (string * list string)) (t w : string) :
  has_entity ((k, texts) :: rest) t w <-> (t = k /\ In w texts) \/ has_entity rest t w.
Proof.
  unfold has_entity. split.
  - intros [ws [[Heq|Hin] Hw]].
    + injection Heq as -> ->. now left.
    + right. now exists ws.
  - intros [[-> Hw]|[ws [Hin Hw]]].
    + exists texts. split; [now left|assumption].
    + exists ws. split; [now right|assumption].
Qed.

Lemma existsb_eqb_In (w : string) (texts : list string) :
  existsb (String.eqb w) texts = true <-> In w texts.
Proof.
  rewrite existsb_exists. split.
  - intros [x [Hin Heq]]. apply String.eqb_eq in Heq. now subst x.
  - intros Hin. exists w. split; [assumption|apply String.eqb_refl].
Qed.

Lemma add_entity_has (es : list (string * list string)) (t w t' w' : string) :
  has_entity (add_entity es t w) t' w' <-> has_entity es t' w' \/ (t' = t /\ w' = w).
Proof.
  induction es as [|[k texts] es IH]; simpl.
  - rewrite has_entity_cons. unfold has_entity. simpl. split.
    + intros [[-> [->|[]]]|[ws [[] _]]]. now right.
    + intros [[ws [[] _]]|[-> ->]]. left. split; [reflexivity|now left].
  - destruct (String.eqb_spec k t) as [->|Hne].
    + rewrite !has_entity_cons.
      destruct (existsb (String.eqb w) texts) eqn:Hex.
      * apply existsb_eqb_In in Hex. split; [tauto|].
        intros [H|[-> ->]]; [assumption|]. now left.
      * split.
        -- intros [[-> Hin]|H]; [|tauto]. apply in_app_or in Hin.
           destruct Hin as [Hin|[->|[]]]; tauto.
        -- intros [[[-> Hin]|H]|[-> ->]]; [left|tauto|left].
           ++ split; [reflexivity|]. apply in_or_app. now left.
           ++ split; [reflexivity|]. apply in_or_app. right. now left.
    + rewrite !has_entity_cons, IH. tauto.
Qed.

Lemma add_entity_keys_In (es : list (string * list string)) (t w k : string) :
  In k (map fst (add_entity es t w)) -> In k (map fst es) \/ k = t.
Proof.
  induction es as [|[k0 texts] es IH]; simpl.
  - intros [<-|[]]. now right.
  - destruct (String.eqb_spec k0 t) as [->|Hne]; simpl; [tauto|].
    intros [<-|Hin]; [tauto|]. apply IH in Hin. tauto.
Qed.

Lemma add_entity_keys_NoDup (es : list (string * list string)) (t w : string) :
  NoDup (map fst es) -> NoDup (map fst (add_entity es t w)).
Proof.
  induction es as [|[k0 texts] es IH]; simpl; intros Hnd.
  - repeat constructor. intros [].
  - inversion Hnd as [|? ? Hnin Hnd']; subst.
    destruct (String.eqb_spec k0 t) as [->|Hne]; simpl; [now constructor|].
    constructor; [|now apply IH].
    intros Hin. apply add_entity_keys_In in Hin. destruct Hin; auto.
Qed.

Lemma add_entity_values (es : list (string * list string)) (t w : string) :
  Forall (fun kv => NoDup (snd kv) /\ snd kv <> []) es ->
  Forall (fun kv => NoDup (snd kv) /\ snd kv <> []) (add_entity es t w).
Proof.
  induction es as [|[k0 texts] es IH]; simpl; intros Hall.
  - repeat constructor; simpl; [intros []|discriminate].
  - inversion Hall as [|? ? [Hnd Hne] Hall']; subst. simpl in Hnd, Hne.
    destruct (String.eqb k0 t); [|constructor; [now split|now apply IH]].
    constructor; [|assumption]. simpl.
    destruct (existsb (String.eqb w) texts) eqn:Hex; [now split|].
    split.
    + apply NoDup_app; [assumption|repeat constructor; intros []|].
      intros x Hx [<-|[]]. apply existsb_eqb_In in Hx. congruence.
    + destruct texts; discriminate.
Qed.

Lemma group_from (raw : list NerEntity) (acc : list (string * list string)) :
  let es := fold_left (fun entities e => add_entity entities (entity e) (word e)) raw acc in
  (NoDup (map fst acc) -> NoDup (map fst es)) /\
  (Forall (fun kv => NoDup (snd kv) /\ snd kv <> []) acc ->
   Forall (fun kv => NoDup (snd kv) /\ snd kv <> []) es) /\
  (forall t w, has_entity es t w <-> has_entity acc t w \/ In (mkEntity t w) raw).
Proof.
  revert acc. induction raw as [|[t0 w0] raw IH]; intros acc; simpl.
  - repeat split; auto. tauto.
  - destruct (IH (add_entity acc t0 w0)) as [Hk [Hv Hm]]. simpl in Hk, Hv, Hm.
    split; [|split].
    + intros Hnd. now apply Hk, add_entity_keys_NoDup.
    + intros Hall. now apply Hv, add_entity_values.
    + intros t w. rewrite Hm, add_entity_has. split.
      * intros [[H|[-> ->]]|H]; tauto.
      * intros [H|[[= -> ->]|H]]; tauto.
Qed.

(** X24: when the NER pipeline returns, [_extract_entities] lists every entity type
    once, lists every word once under its type and no type without a word, and
    a word is under a type exactly when the pipeline reported that pair. *)
Theorem extract_entities_groups (self : DocumentProcessor) (text : string)
    (entities_raw : list NerEntity) :
  ner self (first_part text) = Returns entities_raw ->
  let es := _extract_entities self text in
  NoDup (map fst es) /\
  Forall (fun kv => NoDup (snd kv) /\ snd kv <> []) es /\
  forall t w, has_entity es t w <-> In (mkEntity t w) entities_raw.
Proof.
  intros Hner. unfold _extract_entities. rewrite Hner. cbv zeta.
  destruct (group_from entities_raw []) as [Hk [Hv Hm]]. simpl in Hk, Hv, Hm.
  unfold group_entities. split; [apply Hk; constructor|].
  split; [apply Hv; constructor|].
  intros t w. rewrite Hm. split; [|tauto].
  intros [[ws [[] _]]|H]. assumption.
Qed.

Lemma extract_entities_groups_witness :
  let es := _extract_entities demo_processor "Ada met Byron" in
  NoDup (map fst es) /\
  Forall (fun kv => NoDup (snd kv) /\ snd kv <> []) es /\
  forall t w,
    has_entity es t w <->
    In (mkEntity t w) [mkEntity "I-PER" "Ada"; mkEntity "I-LOC" "London";
                       mkEntity "I-PER" "Ada"; mkEntity "I-PER" "Byron"].
Proof.
  apply (extract_entities_groups demo_processor "Ada met Byron"). reflexivity.
Defined.

Example scenario_entities :
  _extract_entities demo_processor "Ada met Byron"
    = [("I-PER", ["Ada"; "Byron"]); ("I-LOC", ["London"])].
Proof. reflexivity. Qed.

(** ** Counting words *)

Lemma append_nil_r (s : string) : (s ++ "")%string = s.
Proof. induction s as [|c s IH]; simpl; [reflexivity|]. now rewrite IH. Qed.

Lemma append_assoc (a b c : string) : ((a ++ b) ++ c)%string = (a ++ (b ++ c))%string.
Proof. induction a as [|x a IH]; simpl; [reflexivity|]. now rewrite IH. Qed.

Lemma concat_empty_cons (x : string) (xs : list string) :
  String.concat "" (x :: xs) = (x ++ String.concat "" xs)%string.
Proof. destruct xs; simpl; [now rewrite append_nil_r|reflexivity]. Qed.

Lemma remove_spaces_append (a b : string) :
  remove_spaces (a ++ b) = (remove_spaces a ++ remove_spaces b)%string.
Proof.
  induction a as [|c a IH]; simpl; [reflexivity|].
  destruct (isspace c); simpl; now rewrite IH.
Qed.

Lemma split_from_spec (s cur : string) :
  remove_spaces cur = cur ->
  Forall (fun w => w <> "" /\ remove_spaces w = w) (split_from cur s) /\
  String.concat "" (split_from cur s) = (cur ++ remove_spaces s)%string /\
  (2 * length (split_from cur s)
   <= String.length s + (match cur with EmptyString => 1 | _ => 2 end))%nat.
Proof.
  revert cur. induction s as [|c s IH]; intros cur Hcur; simpl.
  - destruct cur as [|c0 cur]; simpl.
    + repeat split; [constructor|lia].
    + repeat split; [|now rewrite append_nil_r|lia].
      repeat constructor; [discriminate|assumption].
  - destruct (isspace c) eqn:Hc.
    + destruct (IH EmptyString eq_refl) as [Hall [Hcat Hlen]]. simpl in Hcat, Hlen.
      destruct cur as [|c0 cur].
      * repeat split; [assumption|assumption|lia].
      * repeat split.
        -- constructor; [split; [discriminate|assumption]|assumption].
        -- now rewrite concat_empty_cons, Hcat.
        -- simpl. lia.
    + assert (Hnext : remove_spaces (cur ++ String c EmptyString)
                      = (cur ++ String c EmptyString)%string).
      { rewrite remove_spaces_append, Hcur. simpl. now rewrite Hc. }
      destruct (IH _ Hnext) as [Hall [Hcat Hlen]].
      repeat split; [assumption| |].
      * rewrite Hcat, append_assoc. reflexivity.
      * destruct (cur ++ String c EmptyString)%string eqn:Happ.
        -- destruct cur; discriminate.
        -- destruct cur; lia.
Qed.

(** X25: the words counted by [process_document] ([text.split()]) are non-empty and
    free of whitespace; put end to end they are the text without its
    whitespace; there are no words exactly when the text is only whitespace,
    and never more than half the characters, rounded up. *)
Theorem split_words (text : string) :
  Forall (fun w => w <> "" /\ remove_spaces w = w) (split text) /\
  String.concat "" (split text) = remove_spaces text /\
  (length (split text) = 0%nat <-> remove_spaces text = "") /\
  (2 * length (split text) <= String.length text + 1)%nat.
Proof.
  destruct (split_from_spec text EmptyString eq_refl) as [Hall [Hcat Hlen]].
  unfold split. simpl in Hcat. repeat split; try assumption.
  - intros Hz. destruct (split_from "" text); [|discriminate].
    rewrite <- Hcat. reflexivity.
  - intros Hempty. rewrite Hempty in Hcat.
    destruct (split_from "" text) as [|x xs]; [reflexivity|].
    rewrite concat_empty_cons in Hcat. inversion Hall as [|? ? [Hne _] _]; subst.
    destruct x; [congruence|discriminate].
Qed.

Example scenario_word_count :
  exists r,
    process_document demo_processor demo_files "notes.txt" "text/plain" = Returns r /\
    word_count r = 5%nat /\ character_count r = 27%nat /\
    summary r = "Could not generate summary: model not loaded" /\
    category (classification r) = "Unknown" /\
    error (classification r) = Some "list index out of range".
Proof. eexists. split; [reflexivity|]. repeat split. Qed.

(** ** PDF text *)

Lemma lstrip_length (s : string) : (String.length (lstrip s) <= String.length s)%nat.
Proof.
  induction s as [|c s IH]; simpl; [lia|]. destruct (isspace c); simpl; lia.
Qed.

Lemma rstrip_length (s : string) : (String.length (rstrip s) <= String.length s)%nat.
Proof.
  induction s as [|c s IH]; simpl; [lia|].
  destruct (rstrip s) as [|c' r]; simpl in *; [destruct (isspace c); simpl; lia|lia].
Qed.

Lemma strip_length (s : string) : (String.length (strip s) <= String.length s)%nat.
Proof.
  unfold strip. pose proof (rstrip_length (lstrip s)). pose proof (lstrip_length s). lia.
Qed.

Lemma pages_text_from (pages : list string) (acc : string) :
  fold_left (fun text page => (text ++ (page ++ String "010"%char ""))%string) pages acc
  = (acc ++ String.concat ""
              (map (fun page => (page ++ String "010"%char "")%string) pages))%string.
Proof.
  revert acc. induction pages as [|page pages IH]; intros acc.
  - simpl. now rewrite append_nil_r.
  - cbn [fold_left map]. rewrite IH, concat_empty_cons, append_assoc. reflexivity.
Qed.

Lemma pages_text_concat (pages : list string) :
  fold_left (fun text page => (text ++ (page ++ String "010"%char ""))%string) pages ""%string
  = String.concat "" (map (fun page => (page ++ String "010"%char "")%string) pages).
Proof. apply pages_text_from. Qed.

(** X26: when the PDF can be read, the extracted text is the texts of the pages
    in order, each followed by a newline.  [_process_pdf] returns that text
    when it has at least 100 characters once stripped, and the placeholder of
    scanned documents otherwise, in particular for a PDF without pages; so
    the text returned never has fewer than 78 characters. *)
Theorem pdf_text_or_placeholder (fs : FileSystem) (file_path : string)
    (pages : list string) :
  pdf_page_texts fs file_path = Returns pages ->
  let extracted :=
    String.concat "" (map (fun page => (page ++ String "010"%char "")%string) pages) in
  ((String.length (strip extracted) < 100)%nat ->
   _process_pdf fs file_path = Returns (_process_scanned_pdf file_path)) /\
  ((100 <= String.length (strip extracted))%nat ->
   _process_pdf fs file_path = Returns extracted) /\
  (pages = [] -> _process_pdf fs file_path = Returns (_process_scanned_pdf file_path)) /\
  (forall text, _process_pdf fs file_path = Returns text -> (78 <= String.length text)%nat).
Proof.
  intros Hpages. cbv zeta. unfold _process_pdf. rewrite Hpages. cbv zeta.
  rewrite pages_text_concat.
  set (extracted := String.concat "" _).
  destruct (Nat.ltb_spec (String.length (strip extracted)) 100) as [Hshort|Hlong].
  - split; [reflexivity|]. split; [lia|]. split; [reflexivity|].
    intros text [= <-]. vm_compute. lia.
  - split; [lia|]. split; [reflexivity|]. split.
    + intros ->. subst extracted. simpl in Hlong. lia.
    + intros text [= <-]. pose proof (strip_length extracted). lia.
Qed.

Lemma pdf_text_or_placeholder_witness :
  let extracted :=
    String.concat ""
      (map (fun page => (page ++ String "010"%char "")%string) two_pages) in
  ((String.length (strip extracted) < 100)%nat ->
   _process_pdf demo_files "report.pdf" = Returns (_process_scanned_pdf "report.pdf")) /\
  ((100 <= String.length (strip extracted))%nat ->
   _process_pdf demo_files "report.pdf" = Returns extracted) /\
  (two_pages = [] ->
   _process_pdf demo_files "report.pdf" = Returns (_process_scanned_pdf "report.pdf")) /\
  (forall text, _process_pdf demo_files "report.pdf" = Returns text ->
                (78 <= String.length text)%nat).
Proof.
  apply (pdf_text_or_placeholder demo_files "report.pdf" two_pages). reflexivity.
Defined.

Example scenario_pdf :
  _process_pdf demo_files "report.pdf"
    = Returns (substring 0 60 thousand_a ++ String "010"%char
                 (substring 0 60 thousand_a ++ String "010"%char ""))%string /\
  _process_pdf demo_files "empty.pdf" = Returns (_process_scanned_pdf "empty.pdf").
Proof. split; vm_compute; reflexivity. Qed.

(** * Further properties of searching *)

(** X16: a search succeeds exactly when the query has the configured dimension
    and the dimension of the index and the limit is at least 1.  A query of
    another length than the configured one raises the dimension-mismatch
    [ValueError]; one that passes this test but not the index's, or a limit of
    0, raises the assertion of the index. *)
Theorem search_error_cases (q : vector) (limit : nat) (s : VectorStore) :
  (shape0 q <> dimension s ->
   search q limit s
     = Err (ValueError_Query_dimension_mismatch (dimension s) (shape0 q))) /\
  (shape0 q = dimension s -> shape0 q <> d (index s) ->
   search q limit s = Err AssertionError) /\
  (shape0 q = dimension s -> shape0 q = d (index s) -> limit = 0%nat ->
   search q limit s = Err AssertionError) /\
  (shape0 q = dimension s -> shape0 q = d (index s) -> (1 <= limit)%nat ->
   exists rs, search q limit s = Ok rs) /\
  (forall rs, search q limit s = Ok rs ->
   shape0 q = dimension s /\ shape0 q = d (index s) /\ (1 <= limit)%nat).
Proof.
  unfold search, IndexFlatL2_search. repeat split.
  - intros Hne. destruct (Z.eqb_spec (shape0 q) (dimension s)); [contradiction|reflexivity].
  - intros Hdim Hd.
    destruct (Z.eqb_spec (shape0 q) (dimension s)); [simpl|contradiction].
    destruct (Z.eqb_spec (shape0 q) (d (index s))); [contradiction|reflexivity].
  - intros Hdim Hd ->.
    destruct (Z.eqb_spec (shape0 q) (dimension s)); [simpl|contradiction].
    destruct (Z.eqb_spec (shape0 q) (d (index s))); reflexivity.
  - intros Hdim Hd Hlimit.
    destruct (Z.eqb_spec (shape0 q) (dimension s)); [simpl|contradiction].
    destruct (Z.eqb_spec (shape0 q) (d (index s))); [|contradiction].
    destruct limit as [|limit]; [lia|]. eexists. reflexivity.
  - destruct (Z.eqb_spec (shape0 q) (dimension s)); [assumption|discriminate].
  - destruct (Z.eqb_spec (shape0 q) (dimension s)); [simpl in *|discriminate].
    destruct (Z.eqb_spec (shape0 q) (d (index s))); [assumption|discriminate].
  - destruct (Z.eqb_spec (shape0 q) (dimension s)); [simpl in *|discriminate].
    destruct (Z.eqb_spec (shape0 q) (d (index s))); [|discriminate].
    destruct limit; [discriminate|lia].
Qed.

Lemma search_error_cases_witness :
  search [0%Q; 0%Q] 1 (store w_a)
    = Err (ValueError_Query_dimension_mismatch 1 2) /\
  search [0%Q] 1 (mkStore 1 (mkIndex 2 []) []) = Err AssertionError /\
  search [0%Q] 0 (store w_a) = Err AssertionError /\
  (exists rs, search [0%Q] 1 (store w_a) = Ok rs) /\
  (shape0 [0%Q] = dimension (store w_ab) /\
   shape0 [0%Q] = d (index (store w_ab)) /\ (1 <= 2)%nat).
Proof.
  split; [|split; [|split; [|split]]].
  - apply (proj1 (search_error_cases [0%Q; 0%Q] 1 (store w_a))). discriminate.
  - apply (proj1 (proj2 (search_error_cases [0%Q] 1 (mkStore 1 (mkIndex 2 []) []))));
      [reflexivity|discriminate].
  - apply (proj1 (proj2 (proj2 (search_error_cases [0%Q] 0 (store w_a))))); reflexivity.
  - apply (proj1 (proj2 (proj2 (proj2 (search_error_cases [0%Q] 1 (store w_a))))));
      [reflexivity|reflexivity|lia].
  - eapply (proj2 (proj2 (proj2 (proj2 (search_error_cases [0%Q] 2 (store w_ab)))))).
    vm_compute. reflexivity.
Defined.

(** X17: a store constructed with a dimension other than that of the index it
    loaded accepts no vector at all: every [add_document] and every [search]
    raises, and nothing is changed. *)
Theorem mismatched_dimension_unusable (s : VectorStore) (dsk : Disk)
    (doc : string) (e : vector) (md : option metadata_t) (limit : nat) :
  d (index s) <> dimension s ->
  (exists x, add_document doc e md (mkSystem s dsk) = (Err x, mkSystem s dsk)) /\
  (exists x, search e limit s = Err x).
Proof.
  intros Hne. unfold add_document, search, IndexFlatL2_add, IndexFlatL2_search. simpl.
  destruct (Z.eqb_spec (shape0 e) (dimension s)) as [Hdim|Hdim]; simpl.
  - destruct (Z.eqb_spec (shape0 e) (d (index s))) as [Hd|Hd]; [congruence|].
    split; eexists; reflexivity.
  - split; eexists; reflexivity.
Qed.

Lemma mismatched_dimension_unusable_witness :
  (exists x, add_document "c" [0%Q; 0%Q] None
               (mkSystem (mkStore 2 (index (store w_a)) (metadata (store w_a))) (disk w_a))
             = (Err x, mkSystem (mkStore 2 (index (store w_a)) (metadata (store w_a)))
                                (disk w_a))) /\
  (exists x, search [0%Q; 0%Q] 3 (mkStore 2 (index (store w_a)) (metadata (store w_a)))
             = Err x).
Proof.
  apply (mismatched_dimension_unusable
           (mkStore 2 (index (store w_a)) (metadata (store w_a))) (disk w_a)
           "c" [0%Q; 0%Q] None 3).
  simpl. discriminate.
Defined.

(** X18: a store without live documents returns no result, whatever the index
    still holds. *)
Theorem search_without_documents (q : vector) (limit : nat) (s : VectorStore)
    (rs : list SearchResult) :
  metadata s = [] -> search q limit s = Ok rs -> rs = [].
Proof.
  intros Hempty Hs. apply search_ok in Hs. destruct Hs as [hits [_ ->]].
  pose proof (prepare_results_ids (metadata s) hits 0) as Hids. rewrite Hempty in *.
  destruct (prepare_results [] 0 hits) as [|r rs']; [reflexivity|].
  inversion Hids as [|? ? Hin _]; subst. destruct Hin.
Qed.

Lemma search_without_documents_witness :
  exists rs,
    search [0%Q] 3 (store (exec (Delete "a") w_a)) = Ok rs /\ rs = [].
Proof.
  eexists. split; [vm_compute; reflexivity|].
  apply (search_without_documents [0%Q] 3 (store (exec (Delete "a") w_a))).
  - reflexivity.
  - vm_compute. reflexivity.
Defined.

Lemma dict_get_of_In (m : pydict) (k : string) (v : DocEntry) :
  dict_wf m -> In (k, v) m -> dict_get m k = Some v.
Proof.
  unfold dict_wf. induction m as [|[k0 v0] m IH]; simpl; intros Hwf Hin; [contradiction|].
  inversion Hwf as [|? ? Hnin Hnd]; subst.
  destruct Hin as [[= -> ->]|Hin].
  - now rewrite String.eqb_refl.
  - destruct (String.eqb_spec k0 k) as [->|Hne]; [|now apply IH].
    exfalso. apply Hnin. unfold keys. apply in_map_iff. now exists (k, v).
Qed.

(** X19: in every reachable state each result of a search is a live document with
    a non-empty id, carries the metadata stored with it, and its similarity is
    computed from the squared distance between the query and the vector stored
    at the document's position. *)
Theorem search_results_are_live (w : System) (q : vector) (limit : nat)
    (rs : list SearchResult) :
  reachable w ->
  search q limit (store w) = Ok rs ->
  Forall (fun r =>
            document_id r <> "" /\
            exists data v,
              dict_get (metadata (store w)) (document_id r) = Some data /\
              result_metadata r = entry_metadata data /\
              nth_error (xb (index (store w))) (Z.to_nat (faiss_id data)) = Some v /\
              similarity r = to_similarity (fvec_L2sqr q v))
         rs.
Proof.
  intros Hr Hs. pose proof (reachable_dict_wf w Hr) as Hwf.
  apply reachable_positions in Hr. destruct Hr as [Hrange _].
  unfold positions_in_range in Hrange. rewrite Forall_forall in Hrange.
  apply search_ok in Hs. destruct Hs as [hits [Hhits ->]].
  apply IndexFlatL2_search_ok in Hhits. destruct Hhits as [_ [_ ->]].
  apply Forall_forall. intros r Hin.
  assert (Htruthy : document_id r <> "").
  { clear -Hin. revert Hin. generalize 0%nat.
    induction (found_hits (index (store w)) q limit ++
               repeat padding_slot
                 (limit - length (found_hits (index (store w)) q limit)))
      as [|[dist idx] hits IH]; intros i; simpl; [contradiction|].
    loop_turn (metadata (store w)) idx; try apply IH.
    intros [<-|Hin]; [|now apply IH in Hin]. simpl. intros ->. discriminate. }
  split; [assumption|].
  match type of Hin with
  | In _ (prepare_results _ _ ?h) =>
      pose proof (prepare_results_origin (metadata (store w)) h 0) as Horigin
  end.
  rewrite Forall_forall in Horigin. apply Horigin in Hin.
  destruct Hin as [_ [dist [idx [data [Hnth [Hres [Hsim Hmeta]]]]]]].
  apply nth_error_In in Hnth. apply resolve_In in Hres. destruct Hres as [Hm Hid].
  pose proof (Hrange _ Hm) as Hpos. simpl in Hpos.
  apply in_app_or in Hnth. destruct Hnth as [Hfound|Hpad].
  - apply found_hits_In in Hfound. simpl in Hfound.
    destruct Hfound as [_ [v [Hv Hdist]]].
    exists data, v. split; [now apply dict_get_of_In|]. split; [assumption|].
    rewrite Hid. split; [assumption|]. now rewrite Hsim, Hdist.
  - apply repeat_spec in Hpad. injection Hpad as _ Hidx. lia.
Qed.

Lemma search_results_are_live_witness :
  exists rs,
    search [0%Q] 3 (store w_b) = Ok rs /\
    Forall (fun r =>
              document_id r <> "" /\
              exists data v,
                dict_get (metadata (store w_b)) (document_id r) = Some data /\
                result_metadata r = entry_metadata data /\
                nth_error (xb (index (store w_b))) (Z.to_nat (faiss_id data)) = Some v /\
                similarity r = to_similarity (fvec_L2sqr [0%Q] v))
           rs.
Proof.
  eexists. split; [vm_compute; reflexivity|].
  apply (search_results_are_live w_b [0%Q] 3).
  - unfold w_b, w_ab, w_a. do 3 apply reach_exec. apply reach_fresh. reflexivity.
  - vm_compute. reflexivity.
Defined.
